(** * Gravitino Python client: [gravitino/api/decimal.py] and
      [gravitino/api/expressions/transforms.py]

    A shallow embedding of the two value-object modules and the properties
    their specification states about them.

    - Part I models the part of Python's [decimal] module that
      [decimal.py] calls ([Decimal(str)], [as_tuple], [adjusted],
      [quantize] with [ROUND_HALF_UP], [==]).
    - Part II embeds [gravitino.api.decimal.Decimal].
    - Part III embeds the transform family of [transforms.py], together
      with the attribute lookup rule of Python objects that decides what
      [t.assignments()] means.
    - Part IV states and proves the properties. *)

From Stdlib Require Import ZArith List Bool String Ascii Lia.
Import ListNotations.
Open Scope string_scope.
Open Scope list_scope.
Open Scope Z_scope.

(** ** Exceptions and results *)

(** The Python exceptions that the embedded code can raise.  [ValueError] is
    what [decimal.py] raises for a rejected argument (the specification's
    error kind InvalidArgument); [InvalidOperation] is the [decimal] module's
    own signal; [TypeError] and [AttributeError] come from the interpreter. *)
Inductive Exception : Type :=
| ValueError
| InvalidOperation
| TypeError
| AttributeError.

Inductive Result (A : Type) : Type :=
| Ok (a : A)
| Raise (e : Exception).
Arguments Ok {A} a.
Arguments Raise {A} e.

Definition bind {A B : Type} (r : Result A) (k : A -> Result B) : Result B :=
  match r with
  | Ok a => k a
  | Raise e => Raise e
  end.

Declare Scope result_scope.
Delimit Scope result_scope with result.
Notation "x <- r ;; k" := (bind r (fun x => k))
  (at level 61, r at next level, right associativity) : result_scope.
Open Scope result_scope.

(** Python's [==] on two lists (or tuples): same length and equal items. *)
Definition list_eq {A B : Type} (eq : A -> B -> bool) : list A -> list B -> bool :=
  fix go (xs : list A) (ys : list B) : bool :=
    match xs, ys with
    | [], [] => true
    | x :: xs', y :: ys' => eq x y && go xs' ys'
    | _, _ => false
    end.

(** * Part I: Python's [decimal.Decimal], as far as [decimal.py] uses it *)

Module PyDecimalLib.

(** A finite decimal number, as [as_tuple()] shows it:
    [DecimalTuple(sign, digits, exponent)], the number
    [(-1)^sign * digits * 10^exponent].  [sign] is [true] for Python's 1.
    The special values (NaN, Infinity) are not modelled. *)
Record PyDecimal : Type := DecimalTuple {
  sign : bool;
  digits : list nat;
  exponent : Z
}.

(** [int(s)] for a string of decimal digits, most significant first. *)
Definition int_of_digits (ds : list nat) : Z :=
  fold_left (fun acc d => 10 * acc + Z.of_nat d) ds 0.

(** [str(n)] for [n >= 0], as a list of digits.  The fuel bounds the number
    of decimal digits by the number of binary ones. *)
Fixpoint digits_of_int_aux (fuel : nat) (n : Z) (acc : list nat) : list nat :=
  match fuel with
  | O => acc
  | S fuel' =>
      let acc' := Z.to_nat (n mod 10) :: acc in
      if n <? 10 then acc' else digits_of_int_aux fuel' (n / 10) acc'
  end.

Definition digits_of_int (n : Z) : list nat :=
  digits_of_int_aux (S (Z.to_nat (Z.log2 n))) n [].

(** The coefficient is kept without leading zeros; zero is the digit 0. *)
Fixpoint strip_zeros (ds : list nat) : list nat :=
  match ds with
  | O :: ds' => strip_zeros ds'
  | _ => ds
  end.

Definition normalize (ds : list nat) : list nat :=
  match strip_zeros ds with
  | [] => [O]
  | ds' => ds'
  end.

(** [not self]: the coefficient is the string "0". *)
Definition is_zero (d : PyDecimal) : bool :=
  match digits d with
  | [O] => true
  | _ => false
  end.

(** [adjusted()]: [self._exp + len(self._int) - 1]. *)
Definition adjusted (d : PyDecimal) : Z :=
  exponent d + Z.of_nat (List.length (digits d)) - 1.

(** Well-formed values: what the constructors of [decimal.Decimal] produce. *)
Definition wf_digits (ds : list nat) : Prop :=
  Forall (fun d => (d < 10)%nat) ds /\ ds <> [] /\ (hd O ds = O -> ds = [O]).

Definition wf (d : PyDecimal) : Prop := wf_digits (digits d).

(** *** [Decimal(str)]

    The numeric-string grammar of the module, for finite numbers written in
    ASCII: an optional sign, digits with an optional fractional part (at
    least one digit in all), an optional exponent.  Surrounding white space,
    underscores and the special values are left out of the model: on those
    strings, as on the ones Python rejects, the parser returns [None]. *)

Definition digit_of_ascii (c : ascii) : option nat :=
  let n := nat_of_ascii c in
  if ((48 <=? n) && (n <=? 57))%nat then Some (n - 48)%nat else None.

(** The longest prefix of digits, and the rest. *)
Fixpoint span_digits (s : string) : list nat * string :=
  match s with
  | String c s' =>
      match digit_of_ascii c with
      | Some d => let (ds, rest) := span_digits s' in (d :: ds, rest)
      | None => ([], s)
      end
  | EmptyString => ([], s)
  end.

Definition parse_sign (s : string) : bool * string :=
  match s with
  | String "-" s' => (true, s')
  | String "+" s' => (false, s')
  | _ => (false, s)
  end.

(** [(E(?P<exp>[-+]?\d+))?\Z]: nothing, or an exponent up to the end. *)
Definition parse_exp (s : string) : option Z :=
  match s with
  | EmptyString => Some 0
  | String c s' =>
      if (Ascii.eqb c "E" || Ascii.eqb c "e")%bool then
        let (neg, s'') := parse_sign s' in
        match span_digits s'' with
        | ((_ :: _) as ds, EmptyString) =>
            Some (if neg then - int_of_digits ds else int_of_digits ds)
        | _ => None
        end
      else None
  end.

Definition of_string (s : string) : option PyDecimal :=
  let (sgn, s1) := parse_sign s in
  let (intpart, s2) := span_digits s1 in
  let (fracpart, s3) :=
    match s2 with
    | String "." s2' => span_digits s2'
    | _ => ([], s2)
    end in
  match intpart ++ fracpart with
  | [] => None
  | coeff =>
      match parse_exp s3 with
      | Some e =>
          Some (DecimalTuple sgn (normalize coeff) (e - Z.of_nat (List.length fracpart)))
      | None => None
      end
  end.

(** *** The arithmetic context

    [getcontext()] as the module sets it up: [prec=28], [Emin=-999999],
    [Emax=999999], [clamp=0], with [InvalidOperation] trapped.  [decimal.py]
    never changes it. *)
Definition prec : Z := 28.
Definition Emax : Z := 999999.
Definition Emin : Z := -999999.
Definition Etiny : Z := Emin - prec + 1.

(** *** [quantize] *)

(** [_round_half_up(self, prec)]: 1 when the first discarded digit is one of
    5..9, 0 when every discarded digit is zero, -1 otherwise. *)
Definition _round_half_up (int_ : list nat) (ndigits : nat) : Z :=
  if (5 <=? nth ndigits int_ O)%nat then 1
  else if forallb (Nat.eqb O) (skipn ndigits int_) then 0
  else -1.

(** [_rescale(exp, ROUND_HALF_UP)]: the value at exponent [exp], zeros
    appended when [exp] is not above the value's own exponent, digits cut
    and rounded otherwise. *)
Definition _rescale (self : PyDecimal) (exp : Z) : PyDecimal :=
  if is_zero self then DecimalTuple (sign self) [O] exp
  else if exp <=? exponent self then
    DecimalTuple (sign self)
      (digits self ++ repeat O (Z.to_nat (exponent self - exp))) exp
  else
    let ndigits := Z.of_nat (List.length (digits self)) + exponent self - exp in
    (* [if digits < 0: self = 10**(exp-1); digits = 0] *)
    let int_ := if ndigits <? 0 then [1%nat] else digits self in
    let ndigits := if ndigits <? 0 then O else Z.to_nat ndigits in
    let changed := _round_half_up int_ ndigits in
    let coeff := match firstn ndigits int_ with [] => [O] | c => c end in
    let coeff := if changed =? 1 then digits_of_int (int_of_digits coeff + 1)
                 else coeff in
    DecimalTuple (sign self) coeff exp.

(** [self.quantize(exp, rounding=ROUND_HALF_UP)] in the context above.  The
    closing [_fix] leaves a result unchanged that passed these tests. *)
Definition quantize (self exp : PyDecimal) : Result PyDecimal :=
  if negb ((Etiny <=? exponent exp) && (exponent exp <=? Emax)) then
    Raise InvalidOperation
  else if is_zero self then
    Ok (DecimalTuple (sign self) [O] (exponent exp))
  else if Emax <? adjusted self then Raise InvalidOperation
  else if prec <? adjusted self - exponent exp + 1 then Raise InvalidOperation
  else
    let ans := _rescale self (exponent exp) in
    if Emax <? adjusted ans then Raise InvalidOperation
    else if prec <? Z.of_nat (List.length (digits ans)) then Raise InvalidOperation
    else Ok ans.

(** *** [==]

    [Decimal.__eq__] compares numbers ([_cmp]): zeros are equal whatever their
    sign and exponent; otherwise signs and adjusted exponents must agree and
    so must the coefficients once padded to a common exponent. *)
Definition decimal_eq (self other : PyDecimal) : bool :=
  if is_zero self then is_zero other
  else if is_zero other then false
  else if negb (Bool.eqb (sign self) (sign other)) then false
  else if adjusted self =? adjusted other then
    list_eq Nat.eqb
      (digits self ++ repeat O (Z.to_nat (exponent self - exponent other)))
      (digits other ++ repeat O (Z.to_nat (exponent other - exponent self)))
  else false.

End PyDecimalLib.

(** * Part II: [gravitino/api/decimal.py] *)

Module DecimalPy.
Import PyDecimalLib.

(** An instance of [Decimal]: the three attributes [__init__] sets.  The
    properties [value], [precision] and [scale] return them. *)
Record Decimal : Type := mkDecimal {
  _value : PyDecimal;
  _precision : Z;
  _scale : Z
}.

(** [value: Union[str, PyDecimal]]. *)
Inductive ValueArg : Type :=
| FromStr (s : string)
| FromDecimal (d : PyDecimal).

Section WithTypes.

(** [Types.DecimalType.check_precision_scale], from [.types], is not part of
    these sources: it is taken as a parameter.  [true] means the pair is
    accepted; on [false] the collaborator raises its validation error, a
    [ValueError] like the one [__init__] raises itself. *)
Variable check_precision_scale : Z -> Z -> bool.

(** Python's [hash] on the tuple [(PyDecimal, int, int)]. *)
Variable hash : PyDecimal * Z * Z -> Z.

(** [Decimal.__init__]. *)
Definition __init__ (value : ValueArg) (precision scale : option Z)
  : Result Decimal :=
  value <- match value with
           | FromStr s =>
               match of_string s with
               | Some d => Ok d
               | None => Raise InvalidOperation
               end
           | FromDecimal d => Ok d
           end ;;
  let precision := match precision with
                   | None => Z.of_nat (List.length (digits value))
                   | Some p => p
                   end in
  let scale := match scale with
               | None => - exponent value
               | Some s => s
               end in
  if negb (check_precision_scale precision scale) then Raise ValueError
  else if precision <? adjusted value + 1 then Raise ValueError
  else
    v <- quantize value (DecimalTuple false [1%nat] (- scale)) ;;
    Ok (mkDecimal v precision scale).

(** [Decimal.of]. *)
Definition Decimal_of (value : ValueArg) (precision scale : option Z) : Result Decimal :=
  __init__ value precision scale.

(** [Decimal.__eq__], for [other] a [Decimal]. *)
Definition __eq__ (self other : Decimal) : bool :=
  (_scale self =? _scale other) && decimal_eq (_value self) (_value other).

(** [Decimal.__hash__]. *)
Definition __hash__ (self : Decimal) : Z :=
  hash (_value self, _precision self, _scale self).

End WithTypes.

End DecimalPy.

(** * Part III: [gravitino/api/expressions/transforms.py] *)

Module TransformsPy.

(** ** Values *)

(** What callers pass as a field name: a single name (a Python [str]) or an
    ordered sequence of path segments (a [list] of [str]). *)
Inductive FieldName : Type :=
| Name (s : string)
| Parts (parts : list string).

(** [==] on those: a [str] never equals a [list]. *)
Definition FieldName_eq (a b : FieldName) : bool :=
  match a, b with
  | Name s, Name t => String.eqb s t
  | Parts l, Parts m => list_eq String.eqb l m
  | _, _ => false
  end.

(** [for x in field_name]: the items of a list, the characters of a [str]. *)
Definition iter (fn : FieldName) : list string :=
  match fn with
  | Name s => map (fun c => String c EmptyString) (list_ascii_of_string s)
  | Parts l => l
  end.

(** Modelled from the spec: [NamedReference] (of [named_reference.py]) is
    not among these sources.  The specification gives
    "NamedReference.field(path): builds a field reference from a single name
    or an ordered sequence of names" and "an immutable value with
    equality/hash by path".  The reference keeps the path it was built from,
    [field_name()] returns it, and [==] compares paths. *)
Record NamedReference : Type := FieldReference {
  field_name : FieldName
}.

Definition NamedReference_field (field_name : FieldName) : NamedReference :=
  FieldReference field_name.

Definition NamedReference_eq (a b : NamedReference) : bool :=
  FieldName_eq (field_name a) (field_name b).

(** [ListPartition] and [RangePartition]: placeholder classes without fields
    or methods.  An instance is told apart by its identity only, here [id]. *)
Inductive Partition : Type :=
| ListPartition (id : nat)
| RangePartition (id : nat).

Definition Partition_is (a b : Partition) : bool :=
  match a, b with
  | ListPartition i, ListPartition j => Nat.eqb i j
  | RangePartition i, RangePartition j => Nat.eqb i j
  | _, _ => false
  end.

(** The Python values that transforms hold and return, and the ten concrete
    transform classes with the attributes their [__init__] sets.  The class
    [SingleFieldTransform], which no factory instantiates and no concrete
    class inherits from, is left out.

    [VLiteral v] is [Literals.integer_literal(v)].  Modelled from the spec:
    [Literals] (of [literals.py]) is not among these sources; the
    specification gives "Literal constructors: produce integer-literal
    expression values from plain integers".  A literal is a value of its own
    kind wrapping what it was built from; two literals are equal when what
    they wrap is. *)
#[warnings="-register-all"] Inductive PyVal : Type :=
| VNone
| VInt (n : Z)
| VStr (s : string)
| VList (xs : list PyVal)
| VLiteral (value : PyVal)
| VRef (r : NamedReference)
| VPartition (p : Partition)
| VTransform (t : Transform)
with Transform : Type :=
| IdentityTransform (ref : NamedReference)
| YearTransform (ref : NamedReference)
| MonthTransform (ref : NamedReference)
| DayTransform (ref : NamedReference)
| HourTransform (ref : NamedReference)
| BucketTransform (_num_buckets : PyVal) (fields : list NamedReference)
| TruncateTransform (_width : PyVal) (field : NamedReference)
| ListTransform (fields : list NamedReference) (assignments : list Partition)
| RangeTransform (field : NamedReference) (assignments : list Partition)
| ApplyTransform (_name : string) (_arguments : list PyVal).

Definition Literals_integer_literal (value : PyVal) : PyVal := VLiteral value.

(** [field.field_name()] as a Python value. *)
Definition VFieldName (fn : FieldName) : PyVal :=
  match fn with
  | Name s => VStr s
  | Parts l => VList (map VStr l)
  end.

(** ** Constants of [Partitions] and [Transforms] *)

Definition EMPTY_PARTITIONS : list Partition := [].
Definition EMPTY_TRANSFORM : list PyVal := [].
Definition NAME_OF_IDENTITY := "identity".
Definition NAME_OF_YEAR := "year".
Definition NAME_OF_MONTH := "month".
Definition NAME_OF_DAY := "day".
Definition NAME_OF_HOUR := "hour".
Definition NAME_OF_BUCKET := "bucket".
Definition NAME_OF_TRUNCATE := "truncate".
Definition NAME_OF_LIST := "list".
Definition NAME_OF_RANGE := "range".

(** ** The factory [Transforms] *)

Definition Transforms_identity (field_name : FieldName) : Transform :=
  let field_name :=
    match field_name with Name s => Parts [s] | _ => field_name end in
  IdentityTransform (NamedReference_field field_name).

Definition Transforms_year (field_name : FieldName) : Transform :=
  let field_name :=
    match field_name with Name s => Parts [s] | _ => field_name end in
  YearTransform (NamedReference_field field_name).

Definition Transforms_month (field_name : FieldName) : Transform :=
  let field_name :=
    match field_name with Name s => Parts [s] | _ => field_name end in
  MonthTransform (NamedReference_field field_name).

Definition Transforms_day (field_name : FieldName) : Transform :=
  let field_name :=
    match field_name with Name s => Parts [s] | _ => field_name end in
  DayTransform (NamedReference_field field_name).

Definition Transforms_hour (field_name : FieldName) : Transform :=
  let field_name :=
    match field_name with Name s => Parts [s] | _ => field_name end in
  HourTransform (NamedReference_field field_name).

(** [bucket(num_buckets, *field_names)]. *)
Definition Transforms_bucket (num_buckets : Z) (field_names : list FieldName)
  : Transform :=
  let fields := map NamedReference_field field_names in
  BucketTransform (Literals_integer_literal (VInt num_buckets)) fields.

(** [list(field_names, assignments=None)]. *)
Definition Transforms_list (field_names : list FieldName)
    (assignments : option (list Partition)) : Transform :=
  let assignments := match assignments with None => [] | Some a => a end in
  let fields := map NamedReference_field field_names in
  ListTransform fields assignments.

(** [range(field_name, assignments=None)]. *)
Definition Transforms_range (field_name : FieldName)
    (assignments : option (list Partition)) : Transform :=
  let assignments := match assignments with None => [] | Some a => a end in
  RangeTransform (NamedReference_field field_name) assignments.

Definition Transforms_truncate (width : Z) (field_name : FieldName) : Transform :=
  let field_name :=
    match field_name with Name s => Parts [s] | _ => field_name end in
  TruncateTransform (Literals_integer_literal (VInt width))
    (NamedReference_field field_name).

(** [apply(name, *arguments)]; [ApplyTransform.__init__] copies the tuple
    with [list(arguments)]. *)
Definition Transforms_apply (name : string) (arguments : list PyVal) : Transform :=
  ApplyTransform name arguments.

(** ** Properties and methods of the concrete classes *)

(** [BucketTransform.field_names]:
    [[field_name for field in self.fields for field_name in field.field_name()]]. *)
Definition BucketTransform_field_names (fields : list NamedReference) : list string :=
  flat_map (fun field => iter (field_name field)) fields.

(** [ListTransform.field_names]. *)
Definition ListTransform_field_names (fields : list NamedReference) : list FieldName :=
  map field_name fields.

(** [name()]. *)
Definition name (self : Transform) : string :=
  match self with
  | IdentityTransform _ => NAME_OF_IDENTITY
  | YearTransform _ => NAME_OF_YEAR
  | MonthTransform _ => NAME_OF_MONTH
  | DayTransform _ => NAME_OF_DAY
  | HourTransform _ => NAME_OF_HOUR
  | BucketTransform _ _ => NAME_OF_BUCKET
  | TruncateTransform _ _ => NAME_OF_TRUNCATE
  | ListTransform _ _ => NAME_OF_LIST
  | RangeTransform _ _ => NAME_OF_RANGE
  | ApplyTransform _name _ => _name
  end.

(** ** Equality *)

(** Python's [a == b] on the values above, with [__eq__] of each transform
    class: an [isinstance] test on [other], then the compared attributes. *)
Fixpoint py_eq (a b : PyVal) {struct a} : bool :=
  match a with
  | VNone => match b with VNone => true | _ => false end
  | VInt m => match b with VInt n => m =? n | _ => false end
  | VStr s => match b with VStr t => String.eqb s t | _ => false end
  | VList xs => match b with VList ys => list_eq py_eq xs ys | _ => false end
  | VLiteral x => match b with VLiteral y => py_eq x y | _ => false end
  | VRef r => match b with VRef r' => NamedReference_eq r r' | _ => false end
  | VPartition p => match b with VPartition q => Partition_is p q | _ => false end
  | VTransform t => Transform_eq t b
  end
with Transform_eq (self : Transform) (other : PyVal) {struct self} : bool :=
  match self with
  | IdentityTransform ref =>
      match other with
      | VTransform (IdentityTransform ref') => NamedReference_eq ref ref'
      | _ => false
      end
  | YearTransform ref =>
      match other with
      | VTransform (YearTransform ref') => NamedReference_eq ref ref'
      | _ => false
      end
  | MonthTransform ref =>
      match other with
      | VTransform (MonthTransform ref') => NamedReference_eq ref ref'
      | _ => false
      end
  | DayTransform ref =>
      match other with
      | VTransform (DayTransform ref') => NamedReference_eq ref ref'
      | _ => false
      end
  | HourTransform ref =>
      match other with
      | VTransform (HourTransform ref') => NamedReference_eq ref ref'
      | _ => false
      end
  | BucketTransform num_buckets fields =>
      match other with
      | VTransform (BucketTransform num_buckets' fields') =>
          py_eq num_buckets num_buckets'
          && list_eq String.eqb (BucketTransform_field_names fields)
                                (BucketTransform_field_names fields')
      | _ => false
      end
  | TruncateTransform width field =>
      match other with
      | VTransform (TruncateTransform width' field') =>
          py_eq width width' && NamedReference_eq field field'
      | _ => false
      end
  | ListTransform fields _ =>
      match other with
      | VTransform (ListTransform fields' _) =>
          list_eq NamedReference_eq fields fields'
      | _ => false
      end
  | RangeTransform field _ =>
      match other with
      | VTransform (RangeTransform field' _) => NamedReference_eq field field'
      | _ => false
      end
  | ApplyTransform _name _arguments =>
      match other with
      | VTransform (ApplyTransform _name' _arguments') =>
          String.eqb _name _name' && list_eq py_eq _arguments _arguments'
      | _ => false
      end
  end.

(** ** Hashing, arguments and attribute lookup *)

Section WithBuiltins.

(** Python's built-in [hash] on an [int], on a [str], on a tuple (from the
    hashes of its items), on an object that does not define [__hash__] (from
    its identity) and on [None].  Their values are machine-sized integers;
    they are left abstract, and nothing below depends on their range or on
    their telling different inputs apart. *)
Variable hash_int : Z -> Z.
Variable hash_str : string -> Z.
Variable hash_tuple : list Z -> Z.
Variable hash_id : nat -> Z.
Variable hash_None : Z.

(** The collaborators' [__hash__] and [__str__], functions of the value:
    of the path for a reference ("equality/hash by path"), of the wrapped
    value for a literal. *)
Variable hash_reference : NamedReference -> Z.
Variable str_reference : NamedReference -> string.
Variable hash_literal : PyVal -> Z.
Variable str_literal : PyVal -> string.

(** [tuple(hash(x) for x in xs)], failing with the first failure. *)
Definition hash_items {A : Type} (h : A -> Result Z) : list A -> Result (list Z) :=
  fix go (xs : list A) : Result (list Z) :=
    match xs with
    | [] => Ok []
    | x :: xs' => hx <- h x ;; hs <- go xs' ;; Ok (hx :: hs)
    end.

(** [hash(v)]; a [list] is unhashable. *)
Fixpoint py_hash (v : PyVal) {struct v} : Result Z :=
  match v with
  | VNone => Ok hash_None
  | VInt n => Ok (hash_int n)
  | VStr s => Ok (hash_str s)
  | VList _ => Raise TypeError
  | VLiteral x => Ok (hash_literal x)
  | VRef r => Ok (hash_reference r)
  | VPartition (ListPartition i) => Ok (hash_id i)
  | VPartition (RangePartition i) => Ok (hash_id i)
  | VTransform t => Transform_hash t
  end
with Transform_hash (self : Transform) {struct self} : Result Z :=
  match self with
  | IdentityTransform ref => Ok (hash_reference ref)
  | YearTransform ref => Ok (hash_reference ref)
  | MonthTransform ref => Ok (hash_reference ref)
  | DayTransform ref => Ok (hash_reference ref)
  | HourTransform ref => Ok (hash_reference ref)
  | BucketTransform num_buckets fields =>
      (* [hash((self.num_buckets, *(str(field) for field in self.fields)))] *)
      h <- py_hash num_buckets ;;
      Ok (hash_tuple (h :: map (fun field => hash_str (str_reference field)) fields))
  | TruncateTransform width field =>
      h <- py_hash width ;;
      Ok (hash_tuple [h; hash_reference field])
  | ListTransform fields _ =>
      Ok (hash_tuple (map hash_reference fields))
  | RangeTransform field _ => Ok (hash_reference field)
  | ApplyTransform _name _arguments =>
      (* [hash((self.name(), tuple(self.arguments())))] *)
      hs <- hash_items py_hash _arguments ;;
      Ok (hash_tuple [hash_str _name; hash_tuple hs])
  end.

(** [arguments()] of each concrete class. *)
Definition arguments (self : Transform) : list PyVal :=
  match self with
  | IdentityTransform ref => [VRef ref]
  | YearTransform ref => [VRef ref]
  | MonthTransform ref => [VRef ref]
  | DayTransform ref => [VRef ref]
  | HourTransform ref => [VRef ref]
  | BucketTransform num_buckets fields =>
      [VStr (str_literal (Literals_integer_literal num_buckets))]
      ++ map VStr (BucketTransform_field_names fields)
  | TruncateTransform width field => [width; VRef field]
  | ListTransform fields _ => map VRef fields
  | RangeTransform field _ => [VRef field]
  | ApplyTransform _ _arguments => _arguments
  end.

(** *** Classes and their attributes

    A method call [t.m()] first looks the attribute [m] up on [t].  The
    lookup follows [object.__getattribute__]: a property found on the class
    comes first, then the instance's own attributes, then a method or plain
    attribute found on the class.  The classes are searched in method
    resolution order, up to [Transform]; the bases [Expression], [ABC] and
    [object] are not modelled. *)

Inductive Class : Type :=
| C_Transform
| C_Transforms
| C_IdentityTransform
| C_YearTransform
| C_MonthTransform
| C_DayTransform
| C_HourTransform
| C_BucketTransform
| C_TruncateTransform
| C_ListTransform
| C_RangeTransform
| C_ApplyTransform.

Definition type_of (self : Transform) : Class :=
  match self with
  | IdentityTransform _ => C_IdentityTransform
  | YearTransform _ => C_YearTransform
  | MonthTransform _ => C_MonthTransform
  | DayTransform _ => C_DayTransform
  | HourTransform _ => C_HourTransform
  | BucketTransform _ _ => C_BucketTransform
  | TruncateTransform _ _ => C_TruncateTransform
  | ListTransform _ _ => C_ListTransform
  | RangeTransform _ _ => C_RangeTransform
  | ApplyTransform _ _ => C_ApplyTransform
  end.

Definition mro (c : Class) : list Class :=
  match c with
  | C_Transform => [C_Transform]
  | C_Transforms => [C_Transforms; C_Transform]
  | _ => [c; C_Transforms; C_Transform]
  end.

(** What a class body binds a name to. *)
Inductive Member : Type :=
| Method
| Property
| StaticMethod
| ClassAttribute (v : PyVal).

(** The names each class body defines, in source order. *)
Definition class_dict (c : Class) : list (string * Member) :=
  match c with
  | C_Transform =>
      [("name", Method); ("arguments", Method); ("assignments", Method);
       ("children", Method)]
  | C_Transforms =>
      [("EMPTY_TRANSFORM", ClassAttribute (VList EMPTY_TRANSFORM));
       ("NAME_OF_IDENTITY", ClassAttribute (VStr NAME_OF_IDENTITY));
       ("NAME_OF_YEAR", ClassAttribute (VStr NAME_OF_YEAR));
       ("NAME_OF_MONTH", ClassAttribute (VStr NAME_OF_MONTH));
       ("NAME_OF_DAY", ClassAttribute (VStr NAME_OF_DAY));
       ("NAME_OF_HOUR", ClassAttribute (VStr NAME_OF_HOUR));
       ("NAME_OF_BUCKET", ClassAttribute (VStr NAME_OF_BUCKET));
       ("NAME_OF_TRUNCATE", ClassAttribute (VStr NAME_OF_TRUNCATE));
       ("NAME_OF_LIST", ClassAttribute (VStr NAME_OF_LIST));
       ("NAME_OF_RANGE", ClassAttribute (VStr NAME_OF_RANGE));
       ("identity", StaticMethod); ("year", StaticMethod);
       ("month", StaticMethod); ("day", StaticMethod); ("hour", StaticMethod);
       ("bucket", StaticMethod); ("list", StaticMethod);
       ("range", StaticMethod); ("truncate", StaticMethod);
       ("apply", StaticMethod)]
  | C_IdentityTransform | C_ApplyTransform =>
      [("__init__", Method); ("name", Method); ("arguments", Method);
       ("__eq__", Method); ("__hash__", Method)]
  | C_YearTransform | C_MonthTransform | C_DayTransform | C_HourTransform =>
      [("__init__", Method); ("name", Method); ("children", Method);
       ("arguments", Method); ("__eq__", Method); ("__hash__", Method)]
  | C_BucketTransform =>
      [("__init__", Method); ("num_buckets", Property);
       ("field_names", Property); ("name", Method); ("arguments", Method);
       ("__eq__", Method); ("__hash__", Method)]
  | C_TruncateTransform =>
      [("__init__", Method); ("width", Property); ("field_name", Property);
       ("name", Method); ("arguments", Method); ("__eq__", Method);
       ("__hash__", Method)]
  | C_ListTransform =>
      [("__init__", Method); ("field_names", Property); ("name", Method);
       ("arguments", Method); ("assignments", Method); ("__eq__", Method);
       ("__hash__", Method)]
  | C_RangeTransform =>
      [("__init__", Method); ("field_name", Property); ("name", Method);
       ("arguments", Method); ("assignments", Method); ("__eq__", Method);
       ("__hash__", Method)]
  end.

(** [vars(self)]: the attributes [__init__] assigns, in order. *)
Definition instance_dict (self : Transform) : list (string * PyVal) :=
  match self with
  | IdentityTransform ref => [("ref", VRef ref)]
  | YearTransform ref => [("ref", VRef ref)]
  | MonthTransform ref => [("ref", VRef ref)]
  | DayTransform ref => [("ref", VRef ref)]
  | HourTransform ref => [("ref", VRef ref)]
  | BucketTransform num_buckets fields =>
      [("_num_buckets", num_buckets); ("fields", VList (map VRef fields))]
  | TruncateTransform width field =>
      [("_width", width); ("field", VRef field)]
  | ListTransform fields assignments =>
      [("fields", VList (map VRef fields));
       ("assignments", VList (map VPartition assignments))]
  | RangeTransform field assignments =>
      [("field", VRef field);
       ("assignments", VList (map VPartition assignments))]
  | ApplyTransform _name _arguments =>
      [("_name", VStr _name); ("_arguments", VList _arguments)]
  end.

Definition lookup {A : Type} (key : string) (d : list (string * A)) : option A :=
  match find (fun kv => String.eqb key (fst kv)) d with
  | Some kv => Some (snd kv)
  | None => None
  end.

(** The first class of the resolution order that defines [attr]. *)
Fixpoint lookup_mro (cs : list Class) (attr : string) : option (Class * Member) :=
  match cs with
  | [] => None
  | c :: cs' =>
      match lookup attr (class_dict c) with
      | Some m => Some (c, m)
      | None => lookup_mro cs' attr
      end
  end.

(** The getters of the properties. *)
Definition property_get (self : Transform) (attr : string) : Result PyVal :=
  match self with
  | BucketTransform num_buckets fields =>
      if String.eqb attr "num_buckets" then Ok num_buckets
      else if String.eqb attr "field_names" then
        Ok (VList (map VStr (BucketTransform_field_names fields)))
      else Raise AttributeError
  | TruncateTransform width field =>
      if String.eqb attr "width" then Ok width
      else if String.eqb attr "field_name" then Ok (VFieldName (field_name field))
      else Raise AttributeError
  | ListTransform fields _ =>
      if String.eqb attr "field_names" then
        Ok (VList (map VFieldName (ListTransform_field_names fields)))
      else Raise AttributeError
  | RangeTransform field _ =>
      if String.eqb attr "field_name" then Ok (VFieldName (field_name field))
      else Raise AttributeError
  | _ => Raise AttributeError
  end.

(** What [self.attr] evaluates to. *)
Inductive Attr : Type :=
| Value (v : PyVal)
| BoundMethod (owner : Class) (attr : string)
| Function (owner : Class) (attr : string).

(** [getattr(self, attr)]. *)
Definition getattr (self : Transform) (attr : string) : Result Attr :=
  let on_class := lookup_mro (mro (type_of self)) attr in
  match on_class with
  | Some (_, Property) => v <- property_get self attr ;; Ok (Value v)
  | _ =>
      match lookup attr (instance_dict self) with
      | Some v => Ok (Value v)
      | None =>
          match on_class with
          | Some (owner, Method) => Ok (BoundMethod owner attr)
          | Some (owner, StaticMethod) => Ok (Function owner attr)
          | Some (_, ClassAttribute v) => Ok (Value v)
          | _ => Raise AttributeError
          end
      end
  end.

(** The body of the method [attr] that class [owner] defines, run on [self]
    without further arguments.  [Transform.name] and [Transform.arguments]
    are [pass]; [Transform.children] returns [self.arguments()], which every
    concrete class defines and no instance attribute hides. *)
Definition method_body (owner : Class) (attr : string) (self : Transform)
  : Result PyVal :=
  match owner with
  | C_Transform =>
      if String.eqb attr "name" then Ok VNone
      else if String.eqb attr "arguments" then Ok VNone
      else if String.eqb attr "assignments" then
        Ok (VList (map VPartition EMPTY_PARTITIONS))
      else if String.eqb attr "children" then Ok (VList (arguments self))
      else Raise TypeError
  | C_Transforms => Raise TypeError
  | _ =>
      if String.eqb attr "name" then Ok (VStr (name self))
      else if String.eqb attr "arguments" then Ok (VList (arguments self))
      else if String.eqb attr "__hash__" then
        h <- Transform_hash self ;; Ok (VInt h)
      else
        match self with
        | YearTransform ref | MonthTransform ref | DayTransform ref
        | HourTransform ref =>
            if String.eqb attr "children" then Ok (VList [VRef ref])
            else Raise TypeError
        | ListTransform _ assignments | RangeTransform _ assignments =>
            (* [return self.assignments] *)
            if String.eqb attr "assignments" then
              Ok (VList (map VPartition assignments))
            else Raise TypeError
        | _ => Raise TypeError
        end
  end.

(** [self.attr()]: look the attribute up, then call what was found.  A
    list, a string or any other plain value is not callable; a static
    factory or a method called without its arguments fails too. *)
Definition call_method (self : Transform) (attr : string) : Result PyVal :=
  a <- getattr self attr ;;
  match a with
  | Value _ => Raise TypeError
  | Function _ _ => Raise TypeError
  | BoundMethod owner m => method_body owner m self
  end.

End WithBuiltins.

End TransformsPy.

(** * Part IV: properties *)

(** ** Notions the properties are stated with *)

Module Notions.
Import PyDecimalLib TransformsPy.

(** The coefficient of a decimal, as a number. *)
Definition coefficient (d : PyDecimal) : Z := int_of_digits (digits d).

(** The magnitude of [d] counted in units of [10^e], for [e] not above the
    exponent of [d]. *)
Definition magnitude_at (e : Z) (d : PyDecimal) : Z :=
  coefficient d * 10 ^ (exponent d - e).

(** [r] is [v] rounded half up to [scale] fractional digits: [r] has
    exactly [scale] fractional digits and the sign of [v], no multiple of
    [10^-scale] is nearer to [v], and of two equally near ones [r] is the one
    away from zero.  Magnitudes are compared in units of the smaller of the
    two exponents. *)
Definition rounds_half_up (v : PyDecimal) (scale : Z) (r : PyDecimal) : Prop :=
  exponent r = - scale /\
  sign r = sign v /\
  let e := Z.min (exponent v) (- scale) in
  let V := magnitude_at e v in
  let R := magnitude_at e r in
  let ulp := 10 ^ (- scale - e) in
  2 * Z.abs (R - V) <= ulp /\ (2 * Z.abs (R - V) = ulp -> V < R).

(** The integer part of the magnitude of [d].  It needs more than [p]
    digits when it is at least [10^p]. *)
Definition integer_part (d : PyDecimal) : Z :=
  if 0 <=? exponent d then coefficient d * 10 ^ exponent d
  else coefficient d / 10 ^ (- exponent d).

(** The number a decimal stands for, counted in units of [10^e]. *)
Definition signed_at (e : Z) (d : PyDecimal) : Z :=
  (if sign d then -1 else 1) * magnitude_at e d.

(** Two decimals stand for the same number. *)
Definition same_number (a b : PyDecimal) : Prop :=
  let e := Z.min (exponent a) (exponent b) in
  signed_at e a = signed_at e b.

(** A decimal literal without exponent part, from its digits: an optional
    minus sign, the digits before the point and, when there is a point, the
    digits after it. *)
Definition ascii_of_digit (d : nat) : ascii := ascii_of_nat (48 + d).

Fixpoint string_of_digits (ds : list nat) : string :=
  match ds with
  | [] => EmptyString
  | d :: ds' => String (ascii_of_digit d) (string_of_digits ds')
  end.

Definition fraction_string (fraction : option (list nat)) : string :=
  match fraction with
  | None => EmptyString
  | Some fracpart => String "." (string_of_digits fracpart)
  end.

Definition fraction_digits (fraction : option (list nat)) : list nat :=
  match fraction with
  | None => []
  | Some fracpart => fracpart
  end.

Definition plain_literal (neg : bool) (intpart : list nat)
    (fraction : option (list nat)) : string :=
  ((if neg then "-" else "")
   ++ string_of_digits intpart ++ fraction_string fraction)%string.

(** A factory normalizes when a bare name and the one-segment path of that
    name give the same transform. *)
Definition normalizes (factory : FieldName -> Transform) : Prop :=
  forall s : string, factory (Name s) = factory (Parts [s]).

(** Values that [==] compares by content alone: [None], integers, strings,
    references, partitions, and the literals and lists made of such. *)
Fixpoint simple (v : PyVal) : bool :=
  match v with
  | VNone | VInt _ | VStr _ | VRef _ | VPartition _ => true
  | VLiteral x => simple x
  | VList xs => forallb simple xs
  | VTransform _ => false
  end.

(** The path a single-field factory builds its reference from. *)
Definition normalized (field_name : FieldName) : FieldName :=
  match field_name with
  | Name s => Parts [s]
  | Parts _ => field_name
  end.

(** The transforms whose hash is taken over the very attributes that
    equality compares: all but [BucketTransform], with simple values where a
    class holds arbitrary ones. *)
Definition hash_follows_eq (t : Transform) : bool :=
  match t with
  | BucketTransform _ _ => false
  | TruncateTransform width _ => simple width
  | ApplyTransform _ arguments => forallb simple arguments
  | _ => true
  end.

(** The values whose hash never meets a list: no list among the arguments
    of an [ApplyTransform], in a bucket count, in a width or inside a
    literal, at any depth of nesting. *)
Fixpoint hashable (v : PyVal) : bool :=
  match v with
  | VList _ => false
  | VLiteral x => hashable x
  | VTransform t => hashable_transform t
  | _ => true
  end
with hashable_transform (t : Transform) : bool :=
  match t with
  | BucketTransform num_buckets _ => hashable num_buckets
  | TruncateTransform width _ => hashable width
  | ApplyTransform _ arguments => forallb hashable arguments
  | _ => true
  end.

Definition is_apply (t : Transform) : bool :=
  match t with
  | ApplyTransform _ _ => true
  | _ => false
  end.

(** Values whose every part takes part in [==]: no assignments, which
    [ListTransform] and [RangeTransform] leave out of the comparison, and no
    [BucketTransform], which compares its fields flattened. *)
Fixpoint plain (v : PyVal) : bool :=
  match v with
  | VList xs => forallb plain xs
  | VLiteral x => plain x
  | VTransform t => plain_transform t
  | _ => true
  end
with plain_transform (t : Transform) : bool :=
  match t with
  | BucketTransform _ _ => false
  | TruncateTransform width _ => plain width
  | ListTransform _ assignments =>
      match assignments with [] => true | _ => false end
  | RangeTransform _ assignments =>
      match assignments with [] => true | _ => false end
  | ApplyTransform _ arguments => forallb plain arguments
  | _ => true
  end.

End Notions.

(** ** Arithmetic of digit strings *)

Module PyDecimalFacts.
Import PyDecimalLib Notions.

Lemma fold_digits_acc (ds : list nat) (acc : Z) :
  fold_left (fun a d => 10 * a + Z.of_nat d) ds acc
  = acc * 10 ^ Z.of_nat (List.length ds) + int_of_digits ds.
Proof.
  unfold int_of_digits. revert acc.
  induction ds as [|d ds IH]; intro acc.
  - simpl. lia.
  - cbn [fold_left List.length]. rewrite IH, (IH (10 * 0 + Z.of_nat d)).
    rewrite Nat2Z.inj_succ, Z.pow_succ_r by lia. ring.
Qed.

Lemma int_of_digits_cons (d : nat) (ds : list nat) :
  int_of_digits (d :: ds)
  = Z.of_nat d * 10 ^ Z.of_nat (List.length ds) + int_of_digits ds.
Proof.
  unfold int_of_digits at 1. cbn [fold_left].
  rewrite fold_digits_acc. ring.
Qed.

Lemma int_of_digits_app (xs ys : list nat) :
  int_of_digits (xs ++ ys)
  = int_of_digits xs * 10 ^ Z.of_nat (List.length ys) + int_of_digits ys.
Proof.
  unfold int_of_digits at 1. rewrite fold_left_app.
  fold (int_of_digits xs). apply fold_digits_acc.
Qed.

Lemma int_of_digits_bounds (ds : list nat) :
  Forall (fun d => (d < 10)%nat) ds ->
  0 <= int_of_digits ds < 10 ^ Z.of_nat (List.length ds).
Proof.
  induction 1 as [|d ds Hd _ IH].
  - cbn. lia.
  - rewrite int_of_digits_cons. cbn [List.length].
    rewrite Nat2Z.inj_succ, Z.pow_succ_r by lia.
    assert (0 < 10 ^ Z.of_nat (List.length ds)) by (apply Z.pow_pos_nonneg; lia).
    nia.
Qed.

Lemma int_of_digits_zeros (n : nat) : int_of_digits (repeat O n) = 0.
Proof.
  induction n as [|n IH]; [reflexivity|].
  cbn [repeat]. rewrite int_of_digits_cons, IH. lia.
Qed.

Lemma int_of_digits_pad (ds : list nat) (n : nat) :
  int_of_digits (ds ++ repeat O n) = int_of_digits ds * 10 ^ Z.of_nat n.
Proof.
  rewrite int_of_digits_app, repeat_length, int_of_digits_zeros. lia.
Qed.

(** A coefficient without leading zero is at least [10^(len-1)]. *)
Lemma int_of_digits_lower (ds : list nat) :
  Forall (fun d => (d < 10)%nat) ds -> hd O ds <> O ->
  10 ^ (Z.of_nat (List.length ds) - 1) <= int_of_digits ds.
Proof.
  intros Hall Hhd. destruct ds as [|d ds]; [cbn in Hhd; congruence|].
  cbn in Hhd. rewrite int_of_digits_cons. cbn [List.length].
  inversion Hall as [|? ? _ Hds]; subst.
  pose proof (int_of_digits_bounds ds Hds) as Hb.
  replace (Z.of_nat (S (List.length ds)) - 1) with (Z.of_nat (List.length ds)) by lia.
  assert (0 < 10 ^ Z.of_nat (List.length ds)) by (apply Z.pow_pos_nonneg; lia).
  nia.
Qed.

Lemma wf_nonzero_hd (d : PyDecimal) :
  wf d -> is_zero d = false -> hd O (digits d) <> O.
Proof.
  unfold wf, wf_digits, is_zero. intros (_ & _ & Hhd) Hz Hd.
  rewrite (Hhd Hd) in Hz. discriminate.
Qed.

Lemma is_zero_digits (d : PyDecimal) : is_zero d = true -> digits d = [O].
Proof.
  unfold is_zero. destruct (digits d) as [|[|x] [|y l]]; congruence.
Qed.

(** [str(n)] read back is [n]. *)
Lemma digits_of_int_aux_value (fuel : nat) :
  forall n acc, 0 <= n < 2 ^ Z.of_nat fuel ->
  int_of_digits (digits_of_int_aux fuel n acc)
  = n * 10 ^ Z.of_nat (List.length acc) + int_of_digits acc.
Proof.
  induction fuel as [|fuel IH]; intros n acc Hn.
  - cbn in Hn. assert (n = 0) by lia. subst. cbn [digits_of_int_aux]. lia.
  - cbn [digits_of_int_aux].
    assert (Hmod : 0 <= n mod 10 < 10) by (apply Z.mod_pos_bound; lia).
    assert (Hcons : int_of_digits (Z.to_nat (n mod 10) :: acc)
              = (n mod 10) * 10 ^ Z.of_nat (List.length acc) + int_of_digits acc).
    { rewrite int_of_digits_cons, Z2Nat.id by lia. reflexivity. }
    destruct (n <? 10) eqn:Hlt.
    + apply Z.ltb_lt in Hlt. rewrite Hcons, Z.mod_small by lia. reflexivity.
    + apply Z.ltb_ge in Hlt. rewrite IH.
      * rewrite Hcons. cbn [List.length].
        rewrite Nat2Z.inj_succ, Z.pow_succ_r by lia.
        pose proof (Z.div_mod n 10 ltac:(lia)) as Hdm.
        assert (0 < 10 ^ Z.of_nat (List.length acc)) by (apply Z.pow_pos_nonneg; lia).
        nia.
      * rewrite Nat2Z.inj_succ, Z.pow_succ_r in Hn by lia.
        split; [apply Z.div_pos; lia|].
        apply Z.div_lt_upper_bound; lia.
Qed.

Lemma int_of_digits_of_int (n : Z) :
  0 <= n -> int_of_digits (digits_of_int n) = n.
Proof.
  intro Hn. unfold digits_of_int.
  rewrite digits_of_int_aux_value; [cbn; lia|].
  split; [lia|].
  destruct (Z.eq_dec n 0) as [->|Hnz]; [cbn; lia|].
  rewrite Nat2Z.inj_succ, Z2Nat.id by apply Z.log2_nonneg.
  apply Z.log2_spec. lia.
Qed.

Lemma digits_split (ds : list nat) (m : nat) :
  (m < List.length ds)%nat ->
  ds = firstn m ds ++ nth m ds O :: skipn (S m) ds.
Proof.
  revert m. induction ds as [|d ds IH]; intros m Hm; [cbn in Hm; lia|].
  destruct m as [|m]; [reflexivity|].
  cbn [firstn nth skipn app]. f_equal. apply IH. cbn in Hm. lia.
Qed.

(** Cutting a coefficient after its first [m] digits: the kept part, the
    first discarded digit and the rest. *)
Lemma int_of_digits_cut (ds : list nat) (m : nat) :
  Forall (fun d => (d < 10)%nat) ds ->
  (m < List.length ds)%nat ->
  let k := Z.of_nat (List.length ds) - Z.of_nat m in
  exists rest,
    int_of_digits ds
    = int_of_digits (firstn m ds) * 10 ^ k
      + Z.of_nat (nth m ds O) * 10 ^ (k - 1) + rest
    /\ 0 <= rest < 10 ^ (k - 1) /\ (nth m ds O < 10)%nat.
Proof.
  intros Hall Hm k.
  exists (int_of_digits (skipn (S m) ds)).
  assert (Hlen : Z.of_nat (List.length (skipn (S m) ds)) = k - 1).
  { rewrite length_skipn. lia. }
  assert (Hrest : Forall (fun d => (d < 10)%nat) (skipn (S m) ds)).
  { rewrite Forall_forall in *. intros x Hx. apply Hall.
    rewrite <- (firstn_skipn (S m) ds). apply in_or_app. now right. }
  split; [|split].
  - rewrite (digits_split ds m Hm) at 1.
    rewrite int_of_digits_app, int_of_digits_cons. cbn [List.length].
    rewrite Nat2Z.inj_succ, Hlen.
    replace (Z.succ (k - 1)) with k by lia. ring.
  - rewrite <- Hlen. now apply int_of_digits_bounds.
  - rewrite Forall_forall in Hall. apply Hall. apply nth_In. exact Hm.
Qed.

Lemma int_of_digits_kept (ds : list nat) :
  int_of_digits (match ds with [] => [O] | d :: ds' => d :: ds' end)
  = int_of_digits ds.
Proof. destruct ds; reflexivity. Qed.

Lemma rescale_rounds_half_up (v : PyDecimal) (scale : Z) :
  wf v -> rounds_half_up v scale (_rescale v (- scale)).
Proof.
  intros Hwf. pose proof Hwf as (Hall & Hne & _).
  unfold rounds_half_up, _rescale, magnitude_at, coefficient.
  destruct (is_zero v) eqn:Hz.
  - cbn [exponent sign digits]. rewrite (is_zero_digits v Hz).
    repeat split; try reflexivity.
    + change (int_of_digits [O]) with 0. rewrite Z.mul_0_l. cbn [Z.sub Z.abs Z.opp Z.mul Z.add].
      assert (0 < 10 ^ (- scale - Z.min (exponent v) (- scale))) by (apply Z.pow_pos_nonneg; lia).
      lia.
    + change (int_of_digits [O]) with 0. rewrite Z.mul_0_l. cbn.
      assert (0 < 10 ^ (- scale - Z.min (exponent v) (- scale))) by (apply Z.pow_pos_nonneg; lia).
      lia.
  - destruct (- scale <=? exponent v) eqn:Hle.
    + apply Z.leb_le in Hle. cbn [exponent sign digits].
      rewrite Z.min_r by lia. rewrite int_of_digits_pad.
      rewrite Z2Nat.id by lia. rewrite Z.sub_diag, Z.pow_0_r.
      replace (exponent v - - scale) with (exponent v + scale) by lia.
      repeat split; try reflexivity; lia.
    + apply Z.leb_gt in Hle. cbn [exponent sign digits].
      rewrite Z.min_l by lia. rewrite Z.sub_diag, Z.pow_0_r, Z.mul_1_r.
      set (n := Z.of_nat (List.length (digits v))).
      set (k := - scale - exponent v).
      assert (Hk : 0 < k) by (unfold k; lia).
      assert (Hpk : 10 ^ k = 10 * 10 ^ (k - 1)).
      { replace k with (Z.succ (k - 1)) at 1 by lia. apply Z.pow_succ_r. lia. }
      assert (Hpos : 0 < 10 ^ (k - 1)) by (apply Z.pow_pos_nonneg; lia).
      pose proof (int_of_digits_bounds _ Hall) as Hb. fold n in Hb.
      split; [reflexivity|]. split; [reflexivity|].
      destruct (n + exponent v - - scale <? 0) eqn:Hneg.
      * apply Z.ltb_lt in Hneg.
        change (_round_half_up [1%nat] 0 =? 1) with false. cbn iota.
        change (int_of_digits _) with 0 at 1 3.
        assert (10 ^ n <= 10 ^ (k - 1)) by (apply Z.pow_le_mono_r; unfold k; lia).
        lia.
      * apply Z.ltb_ge in Hneg. cbv beta iota zeta.
        set (m := Z.to_nat (n + exponent v - - scale)).
        assert (Hm : (m < List.length (digits v))%nat) by (unfold m, n in *; lia).
        destruct (int_of_digits_cut (digits v) m Hall Hm) as (rest & Hval & Hrest & Hd).
        replace (Z.of_nat (List.length (digits v)) - Z.of_nat m) with k in *
          by (unfold m, k, n in *; lia).
        set (q := int_of_digits (firstn m (digits v))) in *.
        assert (Hq : 0 <= q).
        { apply int_of_digits_bounds. rewrite Forall_forall in *. intros x Hx.
          apply Hall. rewrite <- (firstn_skipn m (digits v)). apply in_or_app. now left. }
        unfold _round_half_up.
        destruct (5 <=? nth m (digits v) O)%nat eqn:H5.
        -- apply Nat.leb_le in H5. change (1 =? 1) with true. cbn iota.
           rewrite int_of_digits_of_int by (rewrite int_of_digits_kept; fold q; lia).
           rewrite int_of_digits_kept. fold q. nia.
        -- apply Nat.leb_gt in H5.
           assert (Hch : ((if forallb (Nat.eqb O) (skipn m (digits v)) then 0 else -1) =? 1) = false)
             by (destruct (forallb _ _); reflexivity).
           rewrite Hch. rewrite int_of_digits_kept. fold q. nia.
Qed.

(** What [quantize] returns is the rescaled value. *)
Lemma quantize_rescale (v e r : PyDecimal) :
  quantize v e = Ok r -> r = _rescale v (exponent e).
Proof.
  unfold quantize, _rescale.
  destruct (negb _); [discriminate|].
  destruct (is_zero v); [congruence|].
  destruct (Emax <? adjusted v); [discriminate|].
  destruct (prec <? _); [discriminate|].
  destruct (Emax <? _); [discriminate|].
  destruct (prec <? _); [discriminate|].
  congruence.
Qed.

(** *** The parser produces well-formed values *)

Lemma digit_of_ascii_lt (c : ascii) (d : nat) :
  digit_of_ascii c = Some d -> (d < 10)%nat.
Proof.
  unfold digit_of_ascii.
  destruct ((48 <=? nat_of_ascii c)%nat && (nat_of_ascii c <=? 57)%nat) eqn:H;
    [|discriminate].
  apply andb_true_iff in H. destruct H as [H1 H2].
  apply Nat.leb_le in H1, H2. intros [= <-]. lia.
Qed.

Lemma span_digits_lt (s : string) :
  Forall (fun d => (d < 10)%nat) (fst (span_digits s)).
Proof.
  induction s as [|c s IH]; cbn [span_digits]; [constructor|].
  destruct (digit_of_ascii c) as [d|] eqn:Hc; [|constructor].
  destruct (span_digits s) as [ds rest]. cbn [fst] in *.
  constructor; [eapply digit_of_ascii_lt; eassumption | assumption].
Qed.

Lemma strip_zeros_spec (ds : list nat) :
  Forall (fun d => (d < 10)%nat) ds ->
  Forall (fun d => (d < 10)%nat) (strip_zeros ds)
  /\ (strip_zeros ds = [] \/ hd O (strip_zeros ds) <> O).
Proof.
  induction 1 as [|d ds Hd Hds IH]; cbn [strip_zeros].
  - split; [constructor | now left].
  - destruct d as [|d]; [exact IH|].
    split; [now constructor | right; cbn; congruence].
Qed.

Lemma normalize_wf (ds : list nat) :
  Forall (fun d => (d < 10)%nat) ds -> wf_digits (normalize ds).
Proof.
  intro H. destruct (strip_zeros_spec ds H) as [Hall Hhd].
  unfold normalize, wf_digits.
  destruct (strip_zeros ds) as [|d ds'] eqn:E.
  - repeat split; [repeat constructor | discriminate].
  - destruct Hhd as [?|Hhd]; [discriminate|].
    repeat split; [assumption | discriminate | intro; contradiction].
Qed.

Lemma of_string_wf (s : string) (v : PyDecimal) :
  of_string s = Some v -> wf v.
Proof.
  unfold of_string.
  destruct (parse_sign s) as [sgn s1].
  pose proof (span_digits_lt s1) as Hint.
  destruct (span_digits s1) as [intpart s2]. cbn [fst] in Hint.
  assert (Hfrac : forall fracpart s3,
             match s2 with
             | String "." s2' => span_digits s2'
             | _ => ([], s2)
             end = (fracpart, s3) ->
             Forall (fun d => (d < 10)%nat) fracpart).
  { intros fracpart s3 E. destruct s2 as [|c s2'].
    - injection E as <- _. constructor.
    - destruct (Ascii.eqb_spec c ".") as [->|Hc].
      + pose proof (span_digits_lt s2') as H. rewrite E in H. exact H.
      + assert (E' : ([], String c s2') = (fracpart, s3)).
        { rewrite <- E. destruct c as [[] [] [] [] [] [] [] []];
            try reflexivity; exfalso; apply Hc; reflexivity. }
        injection E' as <- _. constructor. }
  destruct (match s2 with String "." s2' => span_digits s2' | _ => ([], s2) end)
    as [fracpart s3] eqn:E.
  specialize (Hfrac _ _ eq_refl).
  destruct (intpart ++ fracpart) as [|d ds] eqn:Hcoeff; [discriminate|].
  destruct (parse_exp s3) as [e|]; [|discriminate].
  intros [= <-]. unfold wf. cbn [digits].
  apply normalize_wf. rewrite <- Hcoeff. apply Forall_app. now split.
Qed.

(** *** The magnitude test *)

(** A value whose integer part does not fit in [p] digits has an adjusted
    exponent of at least [p]. *)
Lemma integer_part_adjusted (v : PyDecimal) (p : Z) :
  Forall (fun d => (d < 10)%nat) (digits v) ->
  0 <= p -> 10 ^ p <= integer_part v -> p < adjusted v + 1.
Proof.
  intros Hall Hp Hfit. unfold integer_part, coefficient, adjusted in *.
  pose proof (int_of_digits_bounds _ Hall) as Hb.
  set (n := Z.of_nat (List.length (digits v))) in *.
  set (C := int_of_digits (digits v)) in *.
  assert (Hn : 0 <= n) by (unfold n; lia).
  destruct (Z.lt_ge_cases p (exponent v + n)) as [|Hge]; [lia|]. exfalso.
  destruct (0 <=? exponent v) eqn:He.
  - apply Z.leb_le in He.
    assert (C * 10 ^ exponent v < 10 ^ (n + exponent v)).
    { rewrite Z.pow_add_r by lia.
      assert (0 < 10 ^ exponent v) by (apply Z.pow_pos_nonneg; lia). nia. }
    assert (10 ^ (n + exponent v) <= 10 ^ p) by (apply Z.pow_le_mono_r; lia).
    lia.
  - apply Z.leb_gt in He.
    assert (Hpe : 0 < 10 ^ (- exponent v)) by (apply Z.pow_pos_nonneg; lia).
    assert (C / 10 ^ (- exponent v) < 10 ^ p); [|lia].
    apply Z.div_lt_upper_bound; [exact Hpe|].
    rewrite <- Z.pow_add_r by lia.
    assert (10 ^ n <= 10 ^ (- exponent v + p)) by (apply Z.pow_le_mono_r; lia).
    lia.
Qed.

(** [str(n)] has no more digits than [n] needs. *)
Lemma digits_of_int_aux_length (fuel : nat) :
  forall n acc k, 0 <= n < 10 ^ k -> 1 <= k ->
  Z.of_nat (List.length (digits_of_int_aux fuel n acc))
  <= k + Z.of_nat (List.length acc).
Proof.
  induction fuel as [|fuel IH]; intros n acc k Hn Hk; cbn [digits_of_int_aux].
  - lia.
  - destruct (n <? 10) eqn:Hlt; [cbn [List.length]; lia|].
    apply Z.ltb_ge in Hlt.
    assert (Hk2 : 2 <= k).
    { destruct (Z.eq_dec k 1) as [->|]; [|lia]. change (10 ^ 1) with 10 in Hn. lia. }
    specialize (IH (n / 10) (Z.to_nat (n mod 10) :: acc) (k - 1)).
    cbn [List.length] in IH. rewrite Nat2Z.inj_succ in IH.
    assert (Hp : 10 ^ k = 10 * 10 ^ (k - 1)).
    { replace k with (Z.succ (k - 1)) at 1 by lia. apply Z.pow_succ_r. lia. }
    assert (0 <= n / 10 < 10 ^ (k - 1)).
    { split; [apply Z.div_pos; lia|]. apply Z.div_lt_upper_bound; lia. }
    lia.
Qed.

Lemma digits_of_int_length (n k : Z) :
  0 <= n < 10 ^ k -> 1 <= k -> Z.of_nat (List.length (digits_of_int n)) <= k.
Proof.
  intros Hn Hk. unfold digits_of_int.
  pose proof (digits_of_int_aux_length (S (Z.to_nat (Z.log2 n))) n [] k Hn Hk) as H.
  cbn [List.length] in H. lia.
Qed.

(** The number of digits of a rescaled value. *)
Lemma rescale_length (v : PyDecimal) (exp : Z) :
  Forall (fun d => (d < 10)%nat) (digits v) ->
  Z.of_nat (List.length (digits (_rescale v exp)))
  <= Z.max 1 (adjusted v - exp + 2).
Proof.
  intro Hall. unfold _rescale, adjusted.
  set (n := Z.of_nat (List.length (digits v))).
  destruct (is_zero v); [cbn; lia|].
  destruct (exp <=? exponent v) eqn:Hle.
  - apply Z.leb_le in Hle. cbn [digits].
    rewrite length_app, repeat_length, Nat2Z.inj_add, Z2Nat.id by lia. fold n. lia.
  - apply Z.leb_gt in Hle.
    destruct (n + exponent v - exp <? 0) eqn:Hneg.
    + change (_round_half_up [1%nat] 0 =? 1) with false. cbn. lia.
    + apply Z.ltb_ge in Hneg. cbv beta iota zeta. cbn [digits].
      set (m := Z.to_nat (n + exponent v - exp)).
      assert (Hm : Z.of_nat (List.length (firstn m (digits v))) = Z.of_nat m).
      { rewrite length_firstn. unfold m, n in *. lia. }
      assert (Hkept : Z.of_nat (List.length
                 match firstn m (digits v) with [] => [O] | d :: ds => d :: ds end)
               <= Z.max 1 (Z.of_nat m)).
      { destruct (firstn m (digits v)); cbn [List.length] in *; lia. }
      destruct (_round_half_up (digits v) m =? 1).
      * rewrite int_of_digits_kept.
        assert (Hq : 0 <= int_of_digits (firstn m (digits v)) < 10 ^ Z.of_nat m).
        { rewrite <- Hm. apply int_of_digits_bounds.
          rewrite Forall_forall in *. intros x Hx. apply Hall.
          rewrite <- (firstn_skipn m (digits v)). apply in_or_app. now left. }
        assert (Hp : 10 ^ (Z.of_nat m + 1) = 10 * 10 ^ Z.of_nat m)
          by (rewrite Z.pow_add_r by lia; lia).
        pose proof (digits_of_int_length (int_of_digits (firstn m (digits v)) + 1)
                      (Z.of_nat m + 1) ltac:(lia) ltac:(lia)).
        unfold m in *. lia.
      * unfold m in *. lia.
Qed.

(** *** Rescaling keeps values well formed *)

Lemma digits_of_int_aux_wf (fuel : nat) :
  forall n acc, 0 < n < 2 ^ Z.of_nat fuel ->
  Forall (fun d => (d < 10)%nat) acc ->
  Forall (fun d => (d < 10)%nat) (digits_of_int_aux fuel n acc)
  /\ hd O (digits_of_int_aux fuel n acc) <> O.
Proof.
  induction fuel as [|fuel IH]; intros n acc Hn Hacc.
  - cbn in Hn. lia.
  - cbn [digits_of_int_aux].
    assert (Hmod : 0 <= n mod 10 < 10) by (apply Z.mod_pos_bound; lia).
    assert (Hacc' : Forall (fun d => (d < 10)%nat) (Z.to_nat (n mod 10) :: acc))
      by (constructor; [lia | assumption]).
    destruct (n <? 10) eqn:Hlt.
    + apply Z.ltb_lt in Hlt. split; [assumption|].
      cbn [hd]. rewrite Z.mod_small by lia. lia.
    + apply Z.ltb_ge in Hlt. apply IH; [|assumption].
      rewrite Nat2Z.inj_succ, Z.pow_succ_r in Hn by lia.
      split; [apply Z.div_str_pos; lia | apply Z.div_lt_upper_bound; lia].
Qed.

Lemma digits_of_int_wf (n : Z) : 0 < n -> wf_digits (digits_of_int n).
Proof.
  intro Hn. unfold digits_of_int.
  destruct (digits_of_int_aux_wf (S (Z.to_nat (Z.log2 n))) n []) as [Hall Hhd].
  - split; [lia|]. rewrite Nat2Z.inj_succ, Z2Nat.id by apply Z.log2_nonneg.
    apply Z.log2_spec. lia.
  - constructor.
  - repeat split; [assumption | | intro; contradiction].
    intro E. rewrite E in Hhd. now apply Hhd.
Qed.

Lemma rescale_wf (v : PyDecimal) (exp : Z) : wf v -> wf (_rescale v exp).
Proof.
  intros Hwf. pose proof Hwf as (Hall & Hne & _).
  assert (Hzero : wf_digits [O]) by (repeat split; [repeat constructor | discriminate]).
  unfold wf, _rescale.
  destruct (is_zero v) eqn:Hz; [exact Hzero|].
  pose proof (wf_nonzero_hd v Hwf Hz) as Hhd.
  destruct (exp <=? exponent v); cbn [digits].
  - repeat split.
    + apply Forall_app. split; [assumption|]. apply Forall_forall.
      intros x Hx. apply repeat_spec in Hx. subst. lia.
    + destruct (digits v); [congruence | discriminate].
    + intro H0. destruct (digits v); [congruence | contradiction].
  - destruct (Z.of_nat (List.length (digits v)) + exponent v - exp <? 0).
    + change (_round_half_up [1%nat] 0 =? 1) with false. exact Hzero.
    + cbv beta iota zeta.
      set (m := Z.to_nat (Z.of_nat (List.length (digits v)) + exponent v - exp)).
      destruct (_round_half_up (digits v) m =? 1).
      * apply digits_of_int_wf. rewrite int_of_digits_kept.
        assert (0 <= int_of_digits (firstn m (digits v))); [|lia].
        apply int_of_digits_bounds. rewrite Forall_forall in *. intros x Hx.
        apply Hall. rewrite <- (firstn_skipn m (digits v)). apply in_or_app. now left.
      * destruct (digits v) as [|d ds]; [congruence|]. cbn [hd] in Hhd.
        destruct m as [|m]; [exact Hzero|]. cbn [firstn].
        repeat split; [|discriminate | intro; contradiction].
        inversion Hall as [|? ? Hd Hds]; subst. constructor; [assumption|].
        rewrite Forall_forall in *. intros x Hx. apply Hds.
        rewrite <- (firstn_skipn m ds). apply in_or_app. now left.
Qed.

(** *** [==] is equality of numbers *)

Lemma list_eq_nat (xs ys : list nat) : list_eq Nat.eqb xs ys = true <-> xs = ys.
Proof.
  revert ys. induction xs as [|x xs IH]; intros [|y ys]; cbn [list_eq];
    try (split; [discriminate | congruence]); [tauto|].
  rewrite andb_true_iff, Nat.eqb_eq, IH. split; [intros []; congruence|].
  intros [= -> ->]. now split.
Qed.

Lemma int_of_digits_inj (xs : list nat) :
  forall ys,
  Forall (fun d => (d < 10)%nat) xs -> Forall (fun d => (d < 10)%nat) ys ->
  List.length xs = List.length ys ->
  int_of_digits xs = int_of_digits ys -> xs = ys.
Proof.
  induction xs as [|x xs IH]; intros [|y ys] Hx Hy Hlen Hval;
    try discriminate Hlen; [reflexivity|].
  inversion Hx as [|? ? Hx0 Hxs]; inversion Hy as [|? ? Hy0 Hys]; subst.
  injection Hlen as Hlen. rewrite !int_of_digits_cons, Hlen in Hval.
  pose proof (int_of_digits_bounds xs Hxs) as Bx.
  pose proof (int_of_digits_bounds ys Hys) as By. rewrite Hlen in Bx.
  assert (x = y) by nia. subst y.
  f_equal. apply IH; try assumption. lia.
Qed.

Lemma wf_is_zero (d : PyDecimal) :
  wf d -> (is_zero d = true <-> coefficient d = 0).
Proof.
  intros (Hall & Hne & Hhd). unfold coefficient. split.
  - intro Hz. now rewrite (is_zero_digits d Hz).
  - intro Hc. destruct (Nat.eq_dec (hd O (digits d)) O) as [H0|H0].
    + unfold is_zero. now rewrite (Hhd H0).
    + pose proof (int_of_digits_lower _ Hall H0) as Hl.
      assert (0 < 10 ^ (Z.of_nat (List.length (digits d)) - 1)); [|lia].
      apply Z.pow_pos_nonneg; [lia|].
      destruct (digits d); [congruence | cbn [List.length]; lia].
Qed.

(** A non-zero coefficient lies between the powers of ten that its number
    of digits gives. *)
Lemma wf_coefficient_bounds (d : PyDecimal) :
  wf d -> is_zero d = false ->
  10 ^ (Z.of_nat (List.length (digits d)) - 1) <= coefficient d
  < 10 ^ Z.of_nat (List.length (digits d)).
Proof.
  intros Hwf Hz. pose proof Hwf as (Hall & _). unfold coefficient. split.
  - apply int_of_digits_lower; [assumption|]. now apply wf_nonzero_hd.
  - now apply int_of_digits_bounds.
Qed.

Lemma pow10_interval_unique (x y M : Z) :
  0 <= x -> 0 <= y ->
  10 ^ x <= M < 10 ^ (x + 1) -> 10 ^ y <= M < 10 ^ (y + 1) -> x = y.
Proof.
  intros Hx Hy HMx HMy.
  destruct (Z.lt_trichotomy x y) as [H|[H|H]]; [|assumption|]; exfalso.
  - assert (10 ^ (x + 1) <= 10 ^ y) by (apply Z.pow_le_mono_r; lia). lia.
  - assert (10 ^ (y + 1) <= 10 ^ x) by (apply Z.pow_le_mono_r; lia). lia.
Qed.

Lemma magnitude_at_bounds (d : PyDecimal) (e : Z) :
  wf d -> is_zero d = false -> e <= exponent d ->
  10 ^ (adjusted d - e) <= magnitude_at e d < 10 ^ (adjusted d - e + 1).
Proof.
  intros Hwf Hz He. pose proof (wf_coefficient_bounds d Hwf Hz) as Hb.
  unfold magnitude_at, adjusted.
  set (n := Z.of_nat (List.length (digits d))) in *.
  assert (Hn : 1 <= n).
  { destruct Hwf as (_ & Hne & _). unfold n.
    destruct (digits d); [congruence | cbn [List.length]; lia]. }
  replace (exponent d + n - 1 - e) with ((n - 1) + (exponent d - e)) by lia.
  replace (n - 1 + (exponent d - e) + 1) with (n + (exponent d - e)) by lia.
  rewrite !Z.pow_add_r by lia.
  assert (0 < 10 ^ (exponent d - e)) by (apply Z.pow_pos_nonneg; lia).
  nia.
Qed.

Lemma padded_value (d : PyDecimal) (other : Z) :
  int_of_digits (digits d ++ repeat O (Z.to_nat (exponent d - other)))
  = magnitude_at (Z.min (exponent d) other) d.
Proof.
  rewrite int_of_digits_pad. unfold magnitude_at, coefficient. f_equal. f_equal. lia.
Qed.

Theorem decimal_eq_same_number (a b : PyDecimal) :
  wf a -> wf b -> (decimal_eq a b = true <-> same_number a b).
Proof.
  intros Ha Hb. unfold decimal_eq, same_number, signed_at.
  pose proof (wf_is_zero a Ha) as Hza. pose proof (wf_is_zero b Hb) as Hzb.
  set (e := Z.min (exponent a) (exponent b)).
  assert (Hea : 0 < 10 ^ (exponent a - e)) by (apply Z.pow_pos_nonneg; lia).
  assert (Heb : 0 < 10 ^ (exponent b - e)) by (apply Z.pow_pos_nonneg; lia).
  destruct (is_zero a) eqn:Za.
  - assert (Ca : coefficient a = 0) by now apply Hza.
    unfold magnitude_at. rewrite Ca, Hzb. split.
    + intros ->. lia.
    + intro Hnum. destruct (sign a), (sign b); nia.
  - assert (Ca : coefficient a <> 0) by (intro H; apply Hza in H; discriminate).
    pose proof (magnitude_at_bounds a e Ha Za ltac:(lia)) as Ba.
    assert (0 < 10 ^ (adjusted a - e)).
    { apply Z.pow_pos_nonneg; [lia|]. unfold adjusted.
      destruct Ha as (_ & Hne & _). destruct (digits a); [congruence|].
      cbn [List.length]. lia. }
    destruct (is_zero b) eqn:Zb.
    + assert (Cb : coefficient b = 0) by now apply Hzb.
      split; [discriminate|]. unfold magnitude_at at 2. rewrite Cb.
      destruct (sign a), (sign b); lia.
    + pose proof (magnitude_at_bounds b e Hb Zb ltac:(lia)) as Bb.
      assert (0 < 10 ^ (adjusted b - e)).
      { apply Z.pow_pos_nonneg; [lia|]. unfold adjusted.
        destruct Hb as (_ & Hne & _). destruct (digits b); [congruence|].
        cbn [List.length]. lia. }
      destruct (Bool.eqb (sign a) (sign b)) eqn:Hs; cbn [negb].
      * apply Bool.eqb_prop in Hs. rewrite <- Hs.
        assert (Hmag : (if sign a then -1 else 1) * magnitude_at e a
                       = (if sign a then -1 else 1) * magnitude_at e b
                       <-> magnitude_at e a = magnitude_at e b)
          by (destruct (sign a); lia).
        rewrite Hmag.
        pose proof (padded_value a (exponent b)) as Pa.
        pose proof (padded_value b (exponent a)) as Pb.
        rewrite Z.min_comm in Pb. fold e in Pa, Pb.
        destruct (adjusted a =? adjusted b) eqn:Hadj.
        -- apply Z.eqb_eq in Hadj. rewrite list_eq_nat. split.
           ++ intro Hpad. rewrite <- Pa, <- Pb, Hpad. reflexivity.
           ++ intro Hnum. apply int_of_digits_inj.
              ** apply Forall_app. split; [apply Ha|]. apply Forall_forall.
                 intros x Hx. apply repeat_spec in Hx. subst. lia.
              ** apply Forall_app. split; [apply Hb|]. apply Forall_forall.
                 intros x Hx. apply repeat_spec in Hx. subst. lia.
              ** rewrite !length_app, !repeat_length. unfold adjusted in Hadj. lia.
              ** now rewrite Pa, Pb.
        -- apply Z.eqb_neq in Hadj. split; [discriminate|]. intro Hnum. exfalso.
           apply Hadj.
           assert (adjusted a - e = adjusted b - e); [|lia].
           apply (pow10_interval_unique _ _ (magnitude_at e a)).
           ++ unfold adjusted. destruct Ha as (_ & Hne & _).
              destruct (digits a); [congruence | cbn [List.length]; lia].
           ++ unfold adjusted. destruct Hb as (_ & Hne & _).
              destruct (digits b); [congruence | cbn [List.length]; lia].
           ++ exact Ba.
           ++ rewrite Hnum. exact Bb.
      * split; [discriminate|]. intro Hnum. exfalso.
        destruct (sign a), (sign b); try discriminate Hs; lia.
Qed.

(** *** Literals without exponent part *)

Lemma digit_of_ascii_of_digit (d : nat) :
  (d < 10)%nat -> digit_of_ascii (ascii_of_digit d) = Some d.
Proof.
  intro H. do 10 (destruct d as [|d]; [reflexivity|]). lia.
Qed.

Lemma span_string_of_digits (ds : list nat) (rest : string) :
  Forall (fun d => (d < 10)%nat) ds ->
  span_digits rest = ([], rest) ->
  span_digits (string_of_digits ds ++ rest)%string = (ds, rest).
Proof.
  intros Hall Hrest. induction Hall as [|d ds Hd _ IH]; [exact Hrest|].
  cbn [string_of_digits String.append span_digits].
  rewrite (digit_of_ascii_of_digit d Hd), IH. reflexivity.
Qed.

Lemma parse_sign_digits (ds : list nat) (fraction : option (list nat)) :
  Forall (fun d => (d < 10)%nat) ds ->
  ds ++ fraction_digits fraction <> [] ->
  parse_sign (string_of_digits ds ++ fraction_string fraction)%string
  = (false, (string_of_digits ds ++ fraction_string fraction)%string).
Proof.
  intros Hall Hne. destruct Hall as [|d ds Hd _].
  - destruct fraction; [reflexivity | cbn in Hne; congruence].
  - do 10 (destruct d as [|d]; [reflexivity|]). lia.
Qed.

Lemma of_string_plain_literal (neg : bool) (intpart : list nat)
    (fraction : option (list nat)) :
  Forall (fun d => (d < 10)%nat) intpart ->
  Forall (fun d => (d < 10)%nat) (fraction_digits fraction) ->
  intpart ++ fraction_digits fraction <> [] ->
  of_string (plain_literal neg intpart fraction)
  = Some (DecimalTuple neg (normalize (intpart ++ fraction_digits fraction))
            (- Z.of_nat (List.length (fraction_digits fraction)))).
Proof.
  intros Hi Hf Hne. unfold of_string, plain_literal.
  assert (Hsign : parse_sign ((if neg then "-" else "")
                    ++ string_of_digits intpart ++ fraction_string fraction)%string
                  = (neg, (string_of_digits intpart ++ fraction_string fraction)%string)).
  { destruct neg; [reflexivity|]. apply (parse_sign_digits _ _ Hi Hne). }
  rewrite Hsign.
  rewrite (span_string_of_digits intpart _ Hi) by (destruct fraction; reflexivity).
  assert (Hfrac : match fraction_string fraction with
                  | String "." s2' => span_digits s2'
                  | _ => ([], fraction_string fraction)
                  end = (fraction_digits fraction, EmptyString)).
  { destruct fraction as [fracpart|]; [|reflexivity].
    cbn [fraction_string fraction_digits] in *.
    pose proof (span_string_of_digits fracpart EmptyString Hf eq_refl) as H.
    assert (E : forall s, (s ++ "")%string = s)
      by (induction s as [|c s IH]; [reflexivity | cbn; now rewrite IH]).
    now rewrite E in H. }
  rewrite Hfrac.
  destruct (intpart ++ fraction_digits fraction) as [|d ds] eqn:E; [congruence|].
  cbn [parse_exp]. reflexivity.
Qed.

End PyDecimalFacts.

(** ** Properties of [Decimal] *)

Module DecimalProperties.
Import PyDecimalLib DecimalPy Notions PyDecimalFacts.

Section WithTypes.

Variable check_precision_scale : Z -> Z -> bool.
Variable hash : PyDecimal * Z * Z -> Z.

Local Abbreviation Decimal_of := (DecimalPy.Decimal_of check_precision_scale).

(** What a successful construction went through. *)
Lemma Decimal_of_str_inv (s : string) (precision scale : option Z) (d : Decimal) :
  Decimal_of (FromStr s) precision scale = Ok d ->
  exists v,
    of_string s = Some v
    /\ _precision d = match precision with
                      | None => Z.of_nat (List.length (digits v))
                      | Some p => p
                      end
    /\ _scale d = match scale with None => - exponent v | Some sc => sc end
    /\ check_precision_scale (_precision d) (_scale d) = true
    /\ adjusted v + 1 <= _precision d
    /\ quantize v (DecimalTuple false [1%nat] (- _scale d)) = Ok (_value d).
Proof.
  unfold DecimalPy.Decimal_of, __init__. cbn [bind].
  destruct (of_string s) as [v|]; [|discriminate]. cbn [bind].
  set (p := match precision with None => _ | Some p => p end).
  set (sc := match scale with None => _ | Some sc => sc end).
  destruct (check_precision_scale p sc) eqn:Hc; [|discriminate]. cbn [negb].
  destruct (p <? adjusted v + 1) eqn:Hp; [discriminate|].
  apply Z.ltb_ge in Hp.
  destruct (quantize v _) as [r|] eqn:Hq; [|discriminate]. cbn [bind].
  intros [= <-]. exists v. cbn [_precision _scale _value]. auto 10.
Qed.

(** A stored value is well formed. *)
Lemma Decimal_of_wf (s : string) (precision scale : option Z) (d : Decimal) :
  Decimal_of (FromStr s) precision scale = Ok d -> wf (_value d).
Proof.
  intro Hd. destruct (Decimal_of_str_inv _ _ _ _ Hd) as (v & Hs & _ & _ & _ & _ & Hq).
  apply quantize_rescale in Hq. rewrite Hq.
  apply rescale_wf. eapply of_string_wf; eassumption.
Qed.

(** Construction succeeds when the validator accepts the pair, the magnitude
    fits and [precision + scale] stays below the context precision. *)
Lemma Decimal_of_succeeds (s : string) (v : PyDecimal) (p sc : Z) :
  of_string s = Some v ->
  check_precision_scale p sc = true ->
  adjusted v + 1 <= p -> 0 <= p -> 0 <= sc -> p + sc < prec ->
  exists d, Decimal_of (FromStr s) (Some p) (Some sc) = Ok d.
Proof.
  intros Hs Hc Hadj Hp Hsc Hprec.
  pose proof (of_string_wf _ _ Hs) as (Hall & _).
  unfold DecimalPy.Decimal_of, __init__. rewrite Hs. cbn [bind]. rewrite Hc. cbn [negb].
  assert (E0 : (p <? adjusted v + 1) = false) by (apply Z.ltb_ge; lia). rewrite E0.
  unfold quantize. cbn [exponent].
  unfold Etiny, Emin, Emax, prec in *.
  assert (E1 : (-999999 - 28 + 1 <=? - sc) && (- sc <=? 999999) = true)
    by (apply andb_true_iff; split; apply Z.leb_le; lia).
  rewrite E1. cbn [negb].
  destruct (is_zero v); [eexists; reflexivity|].
  assert (E2 : (999999 <? adjusted v) = false) by (apply Z.ltb_ge; lia).
  assert (E3 : (28 <? adjusted v - - sc + 1) = false) by (apply Z.ltb_ge; lia).
  rewrite E2, E3.
  pose proof (rescale_length v (- sc) Hall) as Hlen.
  assert (Hexp : exponent (_rescale v (- sc)) = - sc).
  { unfold _rescale. destruct (is_zero v); [reflexivity|].
    destruct (- sc <=? exponent v); reflexivity. }
  assert (E4 : (999999 <? adjusted (_rescale v (- sc))) = false)
    by (apply Z.ltb_ge; unfold adjusted; rewrite Hexp; lia).
  assert (E5 : (28 <? Z.of_nat (List.length (digits (_rescale v (- sc))))) = false)
    by (apply Z.ltb_ge; lia).
  rewrite E4, E5. eexists. reflexivity.
Qed.
(** Quantizing a value to its own exponent returns it. *)
Lemma quantize_same_exponent (v : PyDecimal) :
  exponent v <= 0 -> Etiny <= exponent v ->
  Z.of_nat (List.length (digits v)) <= prec ->
  quantize v (DecimalTuple false [1%nat] (- - exponent v)) = Ok v.
Proof.
  intros He Het Hlen. rewrite Z.opp_involutive.
  unfold quantize, _rescale, adjusted. cbn [exponent digits].
  assert (E1 : (Etiny <=? exponent v) && (exponent v <=? Emax) = true).
  { apply andb_true_iff. split; apply Z.leb_le; [lia|]. unfold Emax. lia. }
  rewrite E1. cbn [negb].
  destruct (is_zero v) eqn:Hz.
  - apply is_zero_digits in Hz. destruct v as [sg ds e]. cbn in *. now subst.
  - assert (E2 : (Emax <? exponent v + Z.of_nat (List.length (digits v)) - 1) = false)
      by (apply Z.ltb_ge; unfold Emax, prec in *; lia).
    assert (E3 : (prec <? exponent v + Z.of_nat (List.length (digits v)) - 1 - exponent v + 1) = false)
      by (apply Z.ltb_ge; lia).
    rewrite E2, E3, Z.leb_refl, Z.sub_diag. cbn [Z.to_nat repeat digits exponent].
    rewrite app_nil_r, E2.
    assert (E4 : (prec <? Z.of_nat (List.length (digits v))) = false) by (apply Z.ltb_ge; lia).
    rewrite E4. destruct v; reflexivity.
Qed.

(** C4: the value stored by [Decimal.of(s, precision, scale)] is [s] rounded
    half up to exactly [scale] fractional digits: so it is whenever the
    construction returns, and it returns when the validator accepts the pair,
    the magnitude fits and [precision + scale] stays below the context
    precision.  [Decimal.of("1.005", 4, 2)] stores 1.01. *)
Theorem C4_of_stores_half_up_rounding :
  (forall s v p sc d,
      of_string s = Some v ->
      Decimal_of (FromStr s) (Some p) (Some sc) = Ok d ->
      rounds_half_up v sc (_value d) /\ _precision d = p /\ _scale d = sc)
  /\ (forall s v p sc,
        of_string s = Some v ->
        check_precision_scale p sc = true ->
        adjusted v + 1 <= p -> 0 <= p -> 0 <= sc -> p + sc < prec ->
        exists d,
          Decimal_of (FromStr s) (Some p) (Some sc) = Ok d
          /\ rounds_half_up v sc (_value d))
  /\ (check_precision_scale 4 2 = true ->
      Decimal_of (FromStr "1.005") (Some 4) (Some 2)
      = Ok (mkDecimal (DecimalTuple false [1; 0; 1]%nat (-2)) 4 2)).
Proof.
  assert (Hpartial : forall s v p sc d,
      of_string s = Some v ->
      Decimal_of (FromStr s) (Some p) (Some sc) = Ok d ->
      rounds_half_up v sc (_value d) /\ _precision d = p /\ _scale d = sc).
  { intros s v p sc d Hs Hd.
    destruct (Decimal_of_str_inv _ _ _ _ Hd) as (v' & Hs' & Hp & Hsc & _ & _ & Hq).
    rewrite Hs in Hs'. injection Hs' as <-.
    rewrite Hsc in Hq. apply quantize_rescale in Hq. cbn [exponent] in Hq.
    rewrite Hq. split; [|now split].
    apply rescale_rounds_half_up. eapply of_string_wf; eassumption. }
  split; [exact Hpartial|]. split.
  - intros s v p sc Hs Hc Hadj Hp Hsc Hprec.
    destruct (Decimal_of_succeeds s v p sc Hs Hc Hadj Hp Hsc Hprec) as [d Hd].
    exists d. split; [exact Hd|]. exact (proj1 (Hpartial _ _ _ _ _ Hs Hd)).
  - intro Hc. unfold DecimalPy.Decimal_of, __init__.
    change (of_string "1.005") with (Some (DecimalTuple false [1; 0; 0; 5]%nat (-3))).
    cbn [bind]. rewrite Hc. reflexivity.
Qed.

(** C5: a precision smaller than the number of digits of the integer part
    of the value is refused with [ValueError], whatever the validator says
    and whatever the scale; [Decimal.of("999", precision=2)] is. *)
Theorem C5_of_rejects_small_precision :
  (forall s v p scale,
      of_string s = Some v -> 0 <= p -> 10 ^ p <= integer_part v ->
      Decimal_of (FromStr s) (Some p) scale = Raise ValueError)
  /\ Decimal_of (FromStr "999") (Some 2) None = Raise ValueError.
Proof.
  split.
  - intros s v p scale Hs Hp Hfit.
    unfold DecimalPy.Decimal_of, __init__. rewrite Hs. cbn [bind].
    destruct (check_precision_scale p _); [|reflexivity]. cbn [negb].
    pose proof (of_string_wf _ _ Hs) as (Hall & _).
    pose proof (integer_part_adjusted v p Hall Hp Hfit) as Hadj.
    apply Z.ltb_lt in Hadj. rewrite Hadj. reflexivity.
  - unfold DecimalPy.Decimal_of, __init__.
    change (of_string "999") with (Some (DecimalTuple false [9; 9; 9]%nat 0)).
    cbn [bind]. destruct (check_precision_scale 2 _); reflexivity.
Qed.

(** Omitted arguments stand for the derived ones. *)
Lemma Decimal_of_derived (s : string) (v : PyDecimal) (precision scale : option Z) :
  of_string s = Some v ->
  Decimal_of (FromStr s) precision scale
  = Decimal_of (FromStr s)
      (Some match precision with
            | None => Z.of_nat (List.length (digits v))
            | Some p => p
            end)
      (Some match scale with None => - exponent v | Some sc => sc end).
Proof.
  intro Hs. unfold DecimalPy.Decimal_of, __init__. rewrite Hs. reflexivity.
Qed.

(** C7: an omitted [precision] is derived as the number of digits of the
    coefficient, whatever the scale, and an omitted [scale] as the negated
    exponent, whatever the precision; an argument that is given is stored as
    it is.  The construction returns when the validator accepts the pair so
    obtained, the magnitude fits and [precision + scale] stays below the
    context precision.  For a literal without exponent part the derived
    values are the number of its digits, leading zeros apart, and the number
    of its digits after the point; a decimal passed as such is treated the
    same way.  [Decimal.of("123.45")] has precision 5 and scale 2. *)
Theorem C7_of_derives_precision_and_scale :
  (forall s v scale d,
      of_string s = Some v ->
      Decimal_of (FromStr s) None scale = Ok d ->
      _precision d = Z.of_nat (List.length (digits v)))
  /\ (forall s v precision d,
        of_string s = Some v ->
        Decimal_of (FromStr s) precision None = Ok d ->
        _scale d = - exponent v)
  /\ (forall s p scale d,
        Decimal_of (FromStr s) (Some p) scale = Ok d -> _precision d = p)
  /\ (forall s precision sc d,
        Decimal_of (FromStr s) precision (Some sc) = Ok d -> _scale d = sc)
  /\ (forall s v precision scale,
        of_string s = Some v ->
        let p := match precision with
                 | None => Z.of_nat (List.length (digits v))
                 | Some p => p
                 end in
        let sc := match scale with None => - exponent v | Some sc => sc end in
        check_precision_scale p sc = true ->
        adjusted v + 1 <= p -> 0 <= p -> 0 <= sc -> p + sc < prec ->
        exists d,
          Decimal_of (FromStr s) precision scale = Ok d
          /\ _precision d = p /\ _scale d = sc)
  /\ (forall s v,
        of_string s = Some v ->
        check_precision_scale (Z.of_nat (List.length (digits v))) (- exponent v) = true ->
        Etiny <= exponent v <= 0 ->
        Z.of_nat (List.length (digits v)) <= prec ->
        Decimal_of (FromStr s) None None
        = Ok (mkDecimal v (Z.of_nat (List.length (digits v))) (- exponent v)))
  /\ (forall neg intpart fraction precision scale d,
        Forall (fun d => (d < 10)%nat) intpart ->
        Forall (fun d => (d < 10)%nat) (fraction_digits fraction) ->
        intpart ++ fraction_digits fraction <> [] ->
        Decimal_of (FromStr (plain_literal neg intpart fraction)) precision scale = Ok d ->
        (precision = None ->
         _precision d
         = Z.of_nat (List.length (normalize (intpart ++ fraction_digits fraction))))
        /\ (scale = None ->
            _scale d = Z.of_nat (List.length (fraction_digits fraction))))
  /\ (forall v precision scale d,
        Decimal_of (FromDecimal v) precision scale = Ok d ->
        _precision d = match precision with
                       | None => Z.of_nat (List.length (digits v))
                       | Some p => p
                       end
        /\ _scale d = match scale with None => - exponent v | Some sc => sc end)
  /\ (check_precision_scale 5 2 = true ->
      Decimal_of (FromStr "123.45") None None
      = Ok (mkDecimal (DecimalTuple false [1; 2; 3; 4; 5]%nat (-2)) 5 2)).
Proof.
  assert (Hinv : forall s v precision scale d,
      of_string s = Some v ->
      Decimal_of (FromStr s) precision scale = Ok d ->
      _precision d = match precision with
                     | None => Z.of_nat (List.length (digits v))
                     | Some p => p
                     end
      /\ _scale d = match scale with None => - exponent v | Some sc => sc end).
  { intros s v precision scale d Hs Hd.
    destruct (Decimal_of_str_inv _ _ _ _ Hd) as (v' & Hs' & Hp & Hsc & _).
    rewrite Hs in Hs'. injection Hs' as <-. now split. }
  split; [|split; [|split; [|split; [|split; [|split; [|split; [|split]]]]]]].
  - intros s v scale d Hs Hd. exact (proj1 (Hinv _ _ _ _ _ Hs Hd)).
  - intros s v precision d Hs Hd. exact (proj2 (Hinv _ _ _ _ _ Hs Hd)).
  - intros s p scale d Hd.
    destruct (Decimal_of_str_inv _ _ _ _ Hd) as (v & _ & Hp & _). exact Hp.
  - intros s precision sc d Hd.
    destruct (Decimal_of_str_inv _ _ _ _ Hd) as (v & _ & _ & Hsc & _). exact Hsc.
  - intros s v precision scale Hs p sc Hc Hadj Hp Hsc Hprec.
    destruct (Decimal_of_succeeds s v p sc Hs Hc Hadj Hp Hsc Hprec) as [d Hd].
    exists d. rewrite (Decimal_of_derived s v precision scale Hs). fold p sc.
    split; [exact Hd|].
    destruct (Decimal_of_str_inv _ _ _ _ Hd) as (v' & _ & Hp' & Hsc' & _).
    now split.
  - intros s v Hs Hc [He1 He2] Hlen.
    unfold DecimalPy.Decimal_of, __init__. rewrite Hs. cbn [bind]. rewrite Hc. cbn [negb].
    assert (E : (Z.of_nat (List.length (digits v)) <? adjusted v + 1) = false)
      by (apply Z.ltb_ge; unfold adjusted; lia).
    rewrite E, quantize_same_exponent by assumption. reflexivity.
  - intros neg intpart fraction precision scale d Hi Hf Hne Hd.
    destruct (Hinv _ _ _ _ _ (of_string_plain_literal neg _ _ Hi Hf Hne) Hd) as [Hp Hsc].
    cbn [digits exponent] in *. split.
    + intros ->. exact Hp.
    + intros ->. lia.
  - intros v precision scale d. unfold DecimalPy.Decimal_of, __init__. cbn [bind].
    set (p := match precision with None => _ | Some p => p end).
    set (sc := match scale with None => _ | Some sc => sc end).
    destruct (check_precision_scale p sc); [|discriminate]. cbn [negb].
    destruct (p <? adjusted v + 1); [discriminate|].
    destruct (quantize v _) as [q|]; [|discriminate]. cbn [bind].
    intros [= <-]. split; reflexivity.
  - intro Hc. unfold DecimalPy.Decimal_of, __init__.
    change (of_string "123.45")
      with (Some (DecimalTuple false [1; 2; 3; 4; 5]%nat (-2))).
    cbn [bind]. change (Z.of_nat _) with 5. change (- exponent _) with 2.
    rewrite Hc. reflexivity.
Qed.

(** C9: the magnitude test looks at the value before rounding:
    [Decimal.of("9.5", 1, 0)] passes it and stores 10, whose integer part
    does not fit in one digit. *)
Theorem C9_of_rounding_can_exceed_precision :
  check_precision_scale 1 0 = true ->
  exists d,
    Decimal_of (FromStr "9.5") (Some 1) (Some 0) = Ok d
    /\ _value d = DecimalTuple false [1; 0]%nat 0
    /\ _precision d = 1
    /\ integer_part (_value d) = 10
    /\ 10 ^ _precision d <= integer_part (_value d) < 10 ^ 2.
Proof.
  intro Hc. eexists. split.
  - unfold DecimalPy.Decimal_of, __init__.
    change (of_string "9.5") with (Some (DecimalTuple false [9; 5]%nat (-1))).
    cbn [bind]. rewrite Hc. reflexivity.
  - cbn [_value _precision].
    change (integer_part (DecimalTuple false [1; 0]%nat 0)) with 10.
    repeat split; try reflexivity; lia.
Qed.

(** C1: two Decimals are equal exactly when their scales are equal and their
    stored values are, as Python's [==] on the values has it and, for
    well-formed values, as numbers; the precision plays no part in it, while
    the hash is taken over the triple of value, precision and scale. *)
Theorem C1_eq_ignores_precision_hash_includes_it :
  (forall a b : Decimal,
      __eq__ a b = true
      <-> _scale a = _scale b /\ decimal_eq (_value a) (_value b) = true)
  /\ (forall a b : Decimal,
        wf (_value a) -> wf (_value b) ->
        (__eq__ a b = true
         <-> _scale a = _scale b /\ same_number (_value a) (_value b)))
  /\ (forall (a b : Decimal) (p : Z),
        __eq__ (mkDecimal (_value a) p (_scale a)) b = __eq__ a b)
  /\ (forall a : Decimal,
        __hash__ hash a = hash (_value a, _precision a, _scale a))
  /\ (check_precision_scale 2 1 = true -> check_precision_scale 3 1 = true ->
      exists a b,
        Decimal_of (FromStr "1.5") (Some 2) (Some 1) = Ok a
        /\ Decimal_of (FromStr "1.5") (Some 3) (Some 1) = Ok b
        /\ __eq__ a b = true
        /\ (_value a, _precision a, _scale a) <> (_value b, _precision b, _scale b)).
Proof.
  assert (Heq : forall a b : Decimal,
      __eq__ a b = true
      <-> _scale a = _scale b /\ decimal_eq (_value a) (_value b) = true).
  { intros a b. unfold __eq__. rewrite andb_true_iff, Z.eqb_eq. reflexivity. }
  split; [exact Heq|]. split; [|split; [|split]].
  - intros a b Ha Hb. rewrite Heq, (decimal_eq_same_number _ _ Ha Hb). reflexivity.
  - reflexivity.
  - reflexivity.
  - intros H2 H3. do 2 eexists.
    unfold DecimalPy.Decimal_of, __init__.
    change (of_string "1.5") with (Some (DecimalTuple false [1; 5]%nat (-1))).
    cbn [bind]. rewrite H2, H3.
    split; [reflexivity|]. split; [reflexivity|]. split; [reflexivity|].
    cbn. intros [= ].
Qed.

End WithTypes.

(** The theorems above at concrete inputs, for a validator that accepts
    every pair. *)

Lemma C4_witness :
  rounds_half_up (DecimalTuple false [1; 0; 0; 5]%nat (-3)) 2
                 (DecimalTuple false [1; 0; 1]%nat (-2))
  /\ DecimalPy.Decimal_of (fun _ _ => true) (FromStr "1.005") (Some 4) (Some 2)
     = Ok (mkDecimal (DecimalTuple false [1; 0; 1]%nat (-2)) 4 2)
  /\ exists d,
       DecimalPy.Decimal_of (fun _ _ => true) (FromStr "-2.5") (Some 3) (Some 0) = Ok d
       /\ rounds_half_up (DecimalTuple true [2; 5]%nat (-1)) 0 (_value d).
Proof.
  pose proof (C4_of_stores_half_up_rounding (fun _ _ => true))
    as (Hpartial & Htotal & Hex).
  split; [|split].
  - exact (proj1 (Hpartial "1.005" _ 4 2 _ eq_refl eq_refl)).
  - exact (Hex eq_refl).
  - apply (Htotal "-2.5" (DecimalTuple true [2; 5]%nat (-1)) 3 0).
    + reflexivity.
    + reflexivity.
    + unfold adjusted. simpl. lia.
    + lia.
    + lia.
    + unfold prec. lia.
Defined.

Lemma C5_witness :
  DecimalPy.Decimal_of (fun _ _ => true) (FromStr "12345.6") (Some 4) (Some 1)
  = Raise ValueError.
Proof.
  apply (proj1 (C5_of_rejects_small_precision (fun _ _ => true))
           "12345.6" (DecimalTuple false [1; 2; 3; 4; 5; 6]%nat (-1))).
  - reflexivity.
  - lia.
  - change (integer_part _) with 12345. lia.
Defined.

Lemma C7_witness :
  DecimalPy.Decimal_of (fun _ _ => true) (FromStr "123.45") None None
  = Ok (mkDecimal (DecimalTuple false [1; 2; 3; 4; 5]%nat (-2)) 5 2)
  /\ (exists d,
        DecimalPy.Decimal_of (fun _ _ => true) (FromStr "123.45") None (Some 1) = Ok d
        /\ _precision d = 5 /\ _scale d = 1)
  /\ (exists d,
        DecimalPy.Decimal_of (fun _ _ => true) (FromStr "123.45") (Some 9) None = Ok d
        /\ _precision d = 9 /\ _scale d = 2)
  /\ _precision (mkDecimal (DecimalTuple false [1; 2; 3; 5]%nat (-1)) 5 1) = 5
  /\ _scale (mkDecimal (DecimalTuple false [1; 2; 3; 4; 5]%nat (-2)) 9 2) = 2
  /\ _precision (mkDecimal (DecimalTuple false [7]%nat (-2)) 1 2)
     = Z.of_nat (List.length (normalize [0; 0; 0; 7]%nat))
  /\ _scale (mkDecimal (DecimalTuple false [7]%nat (-2)) 1 2)
     = Z.of_nat (List.length [0; 7]%nat).
Proof.
  pose proof (C7_of_derives_precision_and_scale (fun _ _ => true))
    as (Hprec & Hscale & _ & _ & Hmixed & Htotal & Hplain & _).
  split; [|split; [|split; [|split; [|split]]]].
  - apply (Htotal "123.45" (DecimalTuple false [1; 2; 3; 4; 5]%nat (-2))).
    + reflexivity.
    + reflexivity.
    + unfold Etiny, Emin, prec. simpl. lia.
    + unfold prec. simpl. lia.
  - apply (Hmixed "123.45" (DecimalTuple false [1; 2; 3; 4; 5]%nat (-2)) None (Some 1)).
    + reflexivity.
    + reflexivity.
    + unfold adjusted. simpl. lia.
    + simpl. lia.
    + lia.
    + unfold prec. simpl. lia.
  - apply (Hmixed "123.45" (DecimalTuple false [1; 2; 3; 4; 5]%nat (-2)) (Some 9) None).
    + reflexivity.
    + reflexivity.
    + unfold adjusted. simpl. lia.
    + lia.
    + simpl. lia.
    + unfold prec. simpl. lia.
  - exact (Hprec "123.45" (DecimalTuple false [1; 2; 3; 4; 5]%nat (-2)) (Some 1)
             (mkDecimal (DecimalTuple false [1; 2; 3; 5]%nat (-1)) 5 1)
             eq_refl eq_refl).
  - exact (Hscale "123.45" (DecimalTuple false [1; 2; 3; 4; 5]%nat (-2)) (Some 9)
             (mkDecimal (DecimalTuple false [1; 2; 3; 4; 5]%nat (-2)) 9 2)
             eq_refl eq_refl).
  - assert (Hd : DecimalPy.Decimal_of (fun _ _ => true)
                   (FromStr (plain_literal false [0; 0]%nat (Some [0; 7]%nat)))
                   None None
                 = Ok (mkDecimal (DecimalTuple false [7]%nat (-2)) 1 2))
      by reflexivity.
    destruct (Hplain false [0; 0]%nat (Some [0; 7]%nat) None None _
                ltac:(repeat constructor) ltac:(repeat constructor)
                ltac:(simpl; discriminate) Hd) as [H1 H2].
    split; [exact (H1 eq_refl) | exact (H2 eq_refl)].
Defined.

Lemma C9_witness :
  exists d,
    DecimalPy.Decimal_of (fun _ _ => true) (FromStr "9.5") (Some 1) (Some 0) = Ok d
    /\ _value d = DecimalTuple false [1; 0]%nat 0
    /\ _precision d = 1
    /\ integer_part (_value d) = 10
    /\ 10 ^ _precision d <= integer_part (_value d) < 10 ^ 2.
Proof.
  apply (C9_of_rounding_can_exceed_precision (fun _ _ => true)). reflexivity.
Defined.

Lemma C1_witness :
  (exists a b,
      DecimalPy.Decimal_of (fun _ _ => true) (FromStr "1.5") (Some 2) (Some 1) = Ok a
      /\ DecimalPy.Decimal_of (fun _ _ => true) (FromStr "1.5") (Some 3) (Some 1) = Ok b
      /\ __eq__ a b = true
      /\ (_value a, _precision a, _scale a) <> (_value b, _precision b, _scale b))
  /\ (__eq__ (mkDecimal (DecimalTuple false [0]%nat (-1)) 2 1)
             (mkDecimal (DecimalTuple true [0]%nat (-1)) 5 1) = true
      <-> 1 = 1 /\ same_number (DecimalTuple false [0]%nat (-1))
                               (DecimalTuple true [0]%nat (-1))).
Proof.
  pose proof (C1_eq_ignores_precision_hash_includes_it (fun _ _ => true) (fun _ => 0))
    as (_ & Hnum & _ & _ & Hex).
  split.
  - apply Hex; reflexivity.
  - apply (Hnum (mkDecimal (DecimalTuple false [0]%nat (-1)) 2 1)
                (mkDecimal (DecimalTuple true [0]%nat (-1)) 5 1)).
    + repeat split; try discriminate; repeat constructor.
    + repeat split; try discriminate; repeat constructor.
Defined.

End DecimalProperties.

(** ** Properties of the transforms *)

Module TransformsProperties.
Import TransformsPy Notions.

Lemma list_eq_refl {A : Type} (eq : A -> A -> bool) (xs : list A) :
  (forall x, In x xs -> eq x x = true) -> list_eq eq xs xs = true.
Proof.
  induction xs as [|x xs IH]; intro H; [reflexivity|].
  cbn [list_eq]. rewrite (H x (or_introl eq_refl)). cbn [andb].
  apply IH. intros y Hy. apply H. now right.
Qed.

Lemma FieldName_eq_refl (fn : FieldName) : FieldName_eq fn fn = true.
Proof.
  destruct fn as [s|l]; cbn [FieldName_eq].
  - apply String.eqb_refl.
  - apply list_eq_refl. intros x _. apply String.eqb_refl.
Qed.

Lemma NamedReference_eq_refl (r : NamedReference) : NamedReference_eq r r = true.
Proof. apply FieldName_eq_refl. Qed.

Lemma FieldName_eq_true (a b : FieldName) : FieldName_eq a b = true -> a = b.
Proof.
  destruct a as [s|l], b as [t|m]; cbn [FieldName_eq]; try discriminate.
  - intro H. apply String.eqb_eq in H. now subst.
  - revert m. induction l as [|x l IH]; intros [|y m]; cbn [list_eq]; try discriminate.
    + reflexivity.
    + intro H. apply andb_true_iff in H. destruct H as [Hx Hl].
      apply String.eqb_eq in Hx. specialize (IH m Hl). congruence.
Qed.

Lemma Partition_is_true (p q : Partition) : Partition_is p q = true -> p = q.
Proof.
  destruct p as [i|i], q as [j|j]; cbn [Partition_is]; try discriminate;
    intro H; apply Nat.eqb_eq in H; now subst.
Qed.

(** On simple values [==] holds between identical values only. *)
Lemma py_eq_simple : forall a, simple a = true -> forall b, py_eq a b = true -> a = b.
Proof.
  fix IH 1. intros a Ha b Hab.
  destruct a as [|m|s|xs|x|r|p|t]; cbn [simple] in Ha; try discriminate Ha;
    destruct b as [|n|s'|ys|y|r'|q|t']; cbn [py_eq] in Hab; try discriminate Hab.
  - reflexivity.
  - apply Z.eqb_eq in Hab. now subst.
  - apply String.eqb_eq in Hab. now subst.
  - f_equal. revert ys Ha Hab.
    induction xs as [|x xs IHxs]; intros [|y ys] Ha Hab;
      cbn [list_eq forallb] in *; try discriminate Hab; [reflexivity|].
    apply andb_true_iff in Ha, Hab. destruct Ha as [Hx Hxs], Hab as [Hxy Hrest].
    rewrite (IH x Hx y Hxy), (IHxs ys Hxs Hrest). reflexivity.
  - f_equal. exact (IH x Ha y Hab).
  - f_equal. destruct r as [fn], r' as [fn']. f_equal. now apply FieldName_eq_true.
  - f_equal. now apply Partition_is_true.
Qed.

Lemma list_eq_simple (xs ys : list PyVal) :
  forallb simple xs = true -> list_eq py_eq xs ys = true -> xs = ys.
Proof.
  revert ys. induction xs as [|x xs IH]; intros [|y ys] Hs Heq;
    cbn [list_eq forallb] in *; try discriminate Heq; [reflexivity|].
  apply andb_true_iff in Hs, Heq. destruct Hs as [Hx Hxs], Heq as [Hxy Hrest].
  rewrite (py_eq_simple x Hx y Hxy), (IH ys Hxs Hrest). reflexivity.
Qed.

Lemma NamedReference_eq_true (a b : NamedReference) :
  NamedReference_eq a b = true -> a = b.
Proof.
  destruct a as [fa], b as [fb]. unfold NamedReference_eq. cbn [field_name].
  intro H. apply FieldName_eq_true in H. now subst.
Qed.

Lemma ref_list_eq_true (xs : list NamedReference) :
  forall ys, list_eq NamedReference_eq xs ys = true -> xs = ys.
Proof.
  induction xs as [|x xs IH]; intros [|y ys]; cbn [list_eq]; try discriminate;
    [reflexivity|].
  intro H. apply andb_true_iff in H. destruct H as [Hx Hxs].
  apply NamedReference_eq_true in Hx. rewrite (IH ys Hxs). now subst.
Qed.

(** On plain values [==] holds between identical values only. *)
Lemma py_eq_plain : forall a b,
    plain a = true -> plain b = true -> py_eq a b = true -> a = b
with Transform_eq_plain : forall t t',
    plain_transform t = true -> plain_transform t' = true ->
    Transform_eq t (VTransform t') = true -> t = t'.
Proof.
  - intros [|n|s|xs|x|r|p|t] b Ha Hb Hab;
      destruct b as [|m|s'|ys|y|r'|q|t']; cbn [py_eq] in Hab;
      try discriminate Hab; try (destruct t; discriminate Hab).
    + reflexivity.
    + apply Z.eqb_eq in Hab. now subst.
    + apply String.eqb_eq in Hab. now subst.
    + f_equal. cbn [plain] in Ha, Hb. revert ys Ha Hb Hab.
      induction xs as [|x xs IH]; intros [|y ys] Ha Hb Hab;
        cbn [list_eq forallb] in *; try discriminate Hab; [reflexivity|].
      apply andb_true_iff in Ha, Hb, Hab.
      destruct Ha as [Hx Hxs], Hb as [Hy Hys], Hab as [Hxy Hrest].
      rewrite (py_eq_plain x y Hx Hy Hxy), (IH ys Hxs Hys Hrest). reflexivity.
    + f_equal. exact (py_eq_plain x y Ha Hb Hab).
    + f_equal. now apply NamedReference_eq_true.
    + f_equal. now apply Partition_is_true.
    + f_equal. exact (Transform_eq_plain t t' Ha Hb Hab).
  - intros [r|r|r|r|r|nb fs|w f|fs a|f a|nm args]
           [r'|r'|r'|r'|r'|nb' fs'|w' f'|fs' a'|f' a'|nm' args'] Ht Ht' Heq;
      cbn [Transform_eq] in Heq; try discriminate Heq;
      cbn [plain_transform] in Ht, Ht'; try discriminate Ht.
    1-5: f_equal; now apply NamedReference_eq_true.
    + apply andb_true_iff in Heq. destruct Heq as [Hw Hf].
      apply NamedReference_eq_true in Hf.
      rewrite (py_eq_plain w w' Ht Ht' Hw). now subst.
    + destruct a; [|discriminate Ht]. destruct a'; [|discriminate Ht'].
      f_equal. now apply ref_list_eq_true.
    + destruct a; [|discriminate Ht]. destruct a'; [|discriminate Ht'].
      f_equal. now apply NamedReference_eq_true.
    + apply andb_true_iff in Heq. destruct Heq as [Hn Ha].
      apply String.eqb_eq in Hn. subst nm'. f_equal.
      revert args' Ht Ht' Ha.
      induction args as [|x xs IH]; intros [|y ys] Ht Ht' Ha;
        cbn [list_eq forallb] in *; try discriminate Ha; [reflexivity|].
      apply andb_true_iff in Ht, Ht', Ha.
      destruct Ht as [Hx Hxs], Ht' as [Hy Hys], Ha as [Hxy Hrest].
      rewrite (py_eq_plain x y Hx Hy Hxy), (IH ys Hxs Hys Hrest). reflexivity.
Qed.

Lemma list_eq_plain (xs ys : list PyVal) :
  forallb plain xs = true -> forallb plain ys = true ->
  list_eq py_eq xs ys = true -> xs = ys.
Proof.
  revert ys. induction xs as [|x xs IH]; intros [|y ys] Hx Hy Heq;
    cbn [list_eq forallb] in *; try discriminate Heq; [reflexivity|].
  apply andb_true_iff in Hx, Hy, Heq.
  destruct Hx as [Hx Hxs], Hy as [Hy Hys], Heq as [Hxy Hrest].
  rewrite (py_eq_plain x y Hx Hy Hxy), (IH ys Hxs Hys Hrest). reflexivity.
Qed.

(** Every value equals itself. *)
Lemma Partition_is_refl (p : Partition) : Partition_is p p = true.
Proof. destruct p; cbn; apply Nat.eqb_refl. Qed.

Lemma py_eq_refl : forall v, py_eq v v = true
with Transform_eq_refl : forall t, Transform_eq t (VTransform t) = true.
Proof.
  - intros [|n|s|xs|x|r|p|t]; cbn [py_eq].
    + reflexivity.
    + apply Z.eqb_refl.
    + apply String.eqb_refl.
    + induction xs as [|x xs IH]; [reflexivity|].
      cbn [list_eq]. now rewrite py_eq_refl, IH.
    + apply py_eq_refl.
    + apply NamedReference_eq_refl.
    + apply Partition_is_refl.
    + apply Transform_eq_refl.
  - intros [r|r|r|r|r|nb fs|w f|fs a|f a|nm args]; cbn [Transform_eq];
      try apply NamedReference_eq_refl.
    + rewrite py_eq_refl. cbn [andb].
      apply list_eq_refl. intros x _. apply String.eqb_refl.
    + now rewrite py_eq_refl, NamedReference_eq_refl.
    + apply list_eq_refl. intros x _. apply NamedReference_eq_refl.
    + rewrite String.eqb_refl. cbn [andb].
      induction args as [|x xs IH]; [reflexivity|].
      cbn [list_eq]. now rewrite py_eq_refl, IH.
Qed.

Section WithBuiltins.

Variable hash_int : Z -> Z.
Variable hash_str : string -> Z.
Variable hash_tuple : list Z -> Z.
Variable hash_id : nat -> Z.
Variable hash_None : Z.
Variable hash_reference : NamedReference -> Z.
Variable str_reference : NamedReference -> string.
Variable hash_literal : PyVal -> Z.
Variable str_literal : PyVal -> string.

Local Abbreviation py_hash :=
  (TransformsPy.py_hash hash_int hash_str hash_tuple hash_id hash_None
     hash_reference str_reference hash_literal).
Local Abbreviation Transform_hash :=
  (TransformsPy.Transform_hash hash_int hash_str hash_tuple hash_id hash_None
     hash_reference str_reference hash_literal).
Local Abbreviation call_method :=
  (TransformsPy.call_method hash_int hash_str hash_tuple hash_id hash_None
     hash_reference str_reference hash_literal str_literal).

(** C2: on a [ListTransform] and on a [RangeTransform] the name [assignments]
    is the instance attribute that [__init__] set, a list, and hides the
    method of that name: the attribute holds the partitions supplied (none
    by default), the call [assignments()] raises [TypeError].  Equality
    compares the fields only. *)
Theorem C2_assignments_attribute_hides_method :
  (forall field_names assignments,
      getattr (Transforms_list field_names assignments) "assignments"
      = Ok (Value (VList (map VPartition
                            match assignments with None => [] | Some a => a end)))
      /\ call_method (Transforms_list field_names assignments) "assignments"
         = Raise TypeError)
  /\ (forall field_name assignments,
        getattr (Transforms_range field_name assignments) "assignments"
        = Ok (Value (VList (map VPartition
                              match assignments with None => [] | Some a => a end)))
        /\ call_method (Transforms_range field_name assignments) "assignments"
           = Raise TypeError)
  /\ (forall field_names a1 a2,
        Transform_eq (Transforms_list field_names a1)
                     (VTransform (Transforms_list field_names a2)) = true)
  /\ (forall field_name a1 a2,
        Transform_eq (Transforms_range field_name a1)
                     (VTransform (Transforms_range field_name a2)) = true)
  /\ (forall field_name,
        call_method (Transforms_identity field_name) "assignments" = Ok (VList [])).
Proof.
  repeat split.
  - intros field_names a1 a2. cbn [Transforms_list Transform_eq]. apply list_eq_refl.
    intros r _. apply NamedReference_eq_refl.
  - intros field_name a1 a2. cbn [Transforms_range Transform_eq].
    apply NamedReference_eq_refl.
Qed.

(** C3: [Transforms.bucket(4, "x", "y")].  Its name is "bucket", its field
    names are "x" and "y", and a second call gives an equal transform with
    the same hash.  But [num_buckets] is the integer literal built from 4,
    which is not equal to the integer 4, and the first argument is the
    string form of a literal wrapping that literal. *)
Theorem C3_bucket_4_x_y :
  let t := Transforms_bucket 4 [Name "x"; Name "y"] in
  let t' := Transforms_bucket 4 [Name "x"; Name "y"] in
  call_method t "name" = Ok (VStr "bucket")
  /\ getattr t "num_buckets" = Ok (Value (VLiteral (VInt 4)))
  /\ py_eq (VLiteral (VInt 4)) (VInt 4) = false
  /\ getattr t "field_names" = Ok (Value (VList [VStr "x"; VStr "y"]))
  /\ call_method t "arguments"
     = Ok (VList [VStr (str_literal (VLiteral (VLiteral (VInt 4))));
                  VStr "x"; VStr "y"])
  /\ Transform_eq t (VTransform t') = true
  /\ Transform_hash t = Transform_hash t'.
Proof. repeat split. Qed.




End WithBuiltins.


(** C10: a transform is equal only to a transform of its own class; so
    transforms of two different classes are never equal, in particular
    [Transforms.year(p)] and [Transforms.month(p)] for every path [p]. *)
Theorem C10_variants_never_equal :
  (forall t other,
      Transform_eq t other = true ->
      exists t', other = VTransform t' /\ type_of t' = type_of t)
  /\ (forall t1 t2,
        type_of t1 <> type_of t2 -> Transform_eq t1 (VTransform t2) = false)
  /\ (forall p,
        Transform_eq (Transforms_year p) (VTransform (Transforms_month p)) = false
        /\ Transform_eq (Transforms_month p) (VTransform (Transforms_year p)) = false).
Proof.
  assert (H : forall t other,
      Transform_eq t other = true ->
      exists t', other = VTransform t' /\ type_of t' = type_of t).
  { intros t other Heq.
    destruct other as [| | | | | | |t']; try (destruct t; discriminate Heq).
    exists t'. split; [reflexivity|].
    destruct t, t'; try reflexivity; discriminate Heq. }
  split; [exact H|]. split.
  - intros t1 t2 Hne. destruct (Transform_eq t1 (VTransform t2)) eqn:E; [|reflexivity].
    destruct (H _ _ E) as (t' & [= <-] & Ht). congruence.
  - intro p. split; reflexivity.
Qed.

(** C8 and C10 at concrete inputs. *)


Lemma C10_witness :
  Transform_eq (IdentityTransform (FieldReference (Parts ["ts"])))
               (VTransform (DayTransform (FieldReference (Parts ["ts"])))) = false
  /\ exists t',
       VTransform (HourTransform (FieldReference (Name "ts"))) = VTransform t'
       /\ type_of t' = type_of (HourTransform (FieldReference (Name "ts"))).
Proof.
  destruct C10_variants_never_equal as (Hsame & Hdiff & _).
  split.
  - apply Hdiff. simpl. discriminate.
  - apply Hsame. reflexivity.
Defined.

End TransformsProperties.

(** * Part V: further properties of [decimal.py] *)

Module DecimalExtras.
Import PyDecimalLib DecimalPy Notions PyDecimalFacts.

Lemma rescale_exponent (v : PyDecimal) (exp : Z) : exponent (_rescale v exp) = exp.
Proof.
  unfold _rescale. destruct (is_zero v); [reflexivity|].
  destruct (exp <=? exponent v); reflexivity.
Qed.

(** What [quantize] has checked when it returns. *)
Lemma quantize_inv (v e r : PyDecimal) :
  quantize v e = Ok r ->
  r = _rescale v (exponent e)
  /\ Etiny <= exponent e <= Emax
  /\ (is_zero r = true
      \/ (adjusted r <= Emax /\ Z.of_nat (List.length (digits r)) <= prec)).
Proof.
  intro H. split; [now apply quantize_rescale|]. revert H. unfold quantize.
  destruct ((Etiny <=? exponent e) && (exponent e <=? Emax)) eqn:Hb;
    cbn [negb]; [|discriminate].
  apply andb_true_iff in Hb. destruct Hb as [H1 H2].
  apply Z.leb_le in H1, H2.
  destruct (is_zero v).
  - intros [= <-]. split; [lia|]. now left.
  - destruct (Emax <? adjusted v); [discriminate|].
    destruct (prec <? _); [discriminate|].
    destruct (Emax <? adjusted (_rescale v (exponent e))) eqn:E1; [discriminate|].
    destruct (prec <? Z.of_nat _) eqn:E2; [discriminate|].
    intros [= <-]. apply Z.ltb_ge in E1, E2. split; [lia|]. right. lia.
Qed.

(** Quantizing once more to the same exponent changes nothing. *)
Lemma quantize_idempotent (v e r : PyDecimal) :
  quantize v e = Ok r -> quantize r e = Ok r.
Proof.
  intro H. destruct (quantize_inv v e r H) as (Hr & [He1 He2] & Hok).
  assert (Hexp : exponent r = exponent e) by (rewrite Hr; apply rescale_exponent).
  unfold quantize.
  assert (Hb : (Etiny <=? exponent e) && (exponent e <=? Emax) = true)
    by (apply andb_true_iff; split; apply Z.leb_le; lia).
  rewrite Hb. cbn [negb].
  destruct (is_zero r) eqn:Hz.
  - apply is_zero_digits in Hz. destruct r as [sg ds ex]. cbn in *. now subst.
  - destruct Hok as [?|[Hadj Hlen]]; [discriminate|].
    assert (E1 : (Emax <? adjusted r) = false) by (apply Z.ltb_ge; lia).
    assert (E2 : (prec <? adjusted r - exponent e + 1) = false)
      by (apply Z.ltb_ge; unfold adjusted; lia).
    rewrite E1, E2.
    assert (Hsame : _rescale r (exponent e) = r).
    { unfold _rescale. rewrite Hz, <- Hexp, Z.leb_refl, Z.sub_diag.
      cbn [Z.to_nat repeat]. rewrite app_nil_r. now destruct r. }
    rewrite Hsame, E1.
    assert (E3 : (prec <? Z.of_nat (List.length (digits r))) = false)
      by (apply Z.ltb_ge; lia).
    now rewrite E3.
Qed.


(** For a value that is not zero, the adjusted exponent tells how many
    digits the integer part needs. *)
Lemma adjusted_integer_part (v : PyDecimal) (p : Z) :
  wf v -> is_zero v = false -> 0 <= p ->
  p < adjusted v + 1 -> 10 ^ p <= integer_part v.
Proof.
  intros Hwf Hz Hp Hadj.
  pose proof (wf_coefficient_bounds v Hwf Hz) as [Hlow _].
  unfold integer_part, adjusted in *.
  set (n := Z.of_nat (List.length (digits v))) in *.
  set (C := coefficient v) in *.
  destruct (0 <=? exponent v) eqn:He.
  - apply Z.leb_le in He.
    assert (Hn : 1 <= n).
    { destruct Hwf as (_ & Hne & _). unfold n.
      destruct (digits v); [congruence | cbn [List.length]; lia]. }
    assert (H1 : 10 ^ p <= 10 ^ ((n - 1) + exponent v))
      by (apply Z.pow_le_mono_r; lia).
    rewrite Z.pow_add_r in H1 by lia.
    assert (0 < 10 ^ exponent v) by (apply Z.pow_pos_nonneg; lia).
    nia.
  - apply Z.leb_gt in He.
    assert (Hpe : 0 < 10 ^ (- exponent v)) by (apply Z.pow_pos_nonneg; lia).
    apply Z.div_le_lower_bound; [exact Hpe|].
    rewrite <- Z.pow_add_r by lia.
    assert (10 ^ (- exponent v + p) <= 10 ^ (n - 1))
      by (apply Z.pow_le_mono_r; lia).
    lia.
Qed.

(** *** Numbers at a common exponent *)

Lemma signed_at_rescale (e e' : Z) (d : PyDecimal) :
  e' <= e -> e <= exponent d ->
  signed_at e' d = signed_at e d * 10 ^ (e - e').
Proof.
  intros H1 H2. unfold signed_at, magnitude_at.
  replace (exponent d - e') with ((exponent d - e) + (e - e')) by lia.
  rewrite Z.pow_add_r by lia. ring.
Qed.

(** Two decimals are the same number when they agree at any exponent below
    both of theirs. *)
Lemma same_number_at (m : Z) (a b : PyDecimal) :
  m <= exponent a -> m <= exponent b ->
  (same_number a b <-> signed_at m a = signed_at m b).
Proof.
  intros Ha Hb. unfold same_number. cbv zeta.
  set (e := Z.min (exponent a) (exponent b)).
  rewrite (signed_at_rescale e m a), (signed_at_rescale e m b) by lia.
  assert (0 < 10 ^ (e - m)) by (apply Z.pow_pos_nonneg; lia).
  split; [intros ->; reflexivity | intro H0; nia].
Qed.

Lemma same_number_refl (a : PyDecimal) : same_number a a.
Proof. reflexivity. Qed.

Lemma same_number_sym (a b : PyDecimal) : same_number a b -> same_number b a.
Proof. unfold same_number. cbv zeta. rewrite Z.min_comm. congruence. Qed.

Lemma same_number_trans (a b c : PyDecimal) :
  same_number a b -> same_number b c -> same_number a c.
Proof.
  set (m := Z.min (exponent a) (Z.min (exponent b) (exponent c))).
  intros Hab Hbc.
  apply (same_number_at m) in Hab; [|lia|lia].
  apply (same_number_at m) in Hbc; [|lia|lia].
  apply (same_number_at m); [lia|lia|congruence].
Qed.

(** Equal decimals of one exponent have the same digits. *)
Lemma eq_same_digits (a b : Decimal) :
  exponent (_value a) = - _scale a -> exponent (_value b) = - _scale b ->
  __eq__ a b = true ->
  digits (_value a) = digits (_value b)
  /\ exponent (_value a) = exponent (_value b)
  /\ (sign (_value a) = sign (_value b) \/ is_zero (_value a) = true).
Proof.
  intros Ha Hb. unfold __eq__. rewrite andb_true_iff, Z.eqb_eq.
  intros [Hsc Heq].
  assert (He : exponent (_value a) = exponent (_value b)) by lia.
  revert Heq. unfold decimal_eq.
  destruct (is_zero (_value a)) eqn:Za.
  - intro Zb. apply is_zero_digits in Za, Zb. rewrite Za, Zb. auto.
  - destruct (is_zero (_value b)); [discriminate|].
    destruct (Bool.eqb (sign (_value a)) (sign (_value b))) eqn:Hs;
      cbn [negb]; [|discriminate].
    apply Bool.eqb_prop in Hs.
    destruct (adjusted (_value a) =? adjusted (_value b)); [|discriminate].
    rewrite He, Z.sub_diag. cbn [Z.to_nat repeat]. rewrite !app_nil_r.
    rewrite list_eq_nat. auto.
Qed.

Section WithTypes.

Variable check_precision_scale : Z -> Z -> bool.

Local Abbreviation Decimal_of := (DecimalPy.Decimal_of check_precision_scale).

(** What a successful construction went through, for either kind of value. *)
Lemma Decimal_of_inv (value : ValueArg) (precision scale : option Z) (d : Decimal) :
  Decimal_of value precision scale = Ok d ->
  exists v,
    match value with
    | FromStr s => of_string s = Some v
    | FromDecimal v' => v' = v
    end
    /\ _precision d = match precision with
                      | None => Z.of_nat (List.length (digits v))
                      | Some p => p
                      end
    /\ _scale d = match scale with None => - exponent v | Some sc => sc end
    /\ check_precision_scale (_precision d) (_scale d) = true
    /\ adjusted v + 1 <= _precision d
    /\ quantize v (DecimalTuple false [1%nat] (- _scale d)) = Ok (_value d).
Proof.
  unfold DecimalPy.Decimal_of, __init__.
  assert (Hparse : exists r,
             match value with
             | FromStr s => match of_string s with
                            | Some d0 => Ok d0
                            | None => Raise InvalidOperation
                            end
             | FromDecimal d0 => Ok d0
             end = r) by (eexists; reflexivity).
  destruct Hparse as [r Hr]. rewrite Hr.
  destruct r as [v|e]; cbn [bind]; [|discriminate].
  set (p := match precision with None => _ | Some p => p end).
  set (sc := match scale with None => _ | Some sc => sc end).
  destruct (check_precision_scale p sc) eqn:Hc; [|discriminate]. cbn [negb].
  destruct (p <? adjusted v + 1) eqn:Hp; [discriminate|].
  apply Z.ltb_ge in Hp.
  destruct (quantize v _) as [q|] eqn:Hq; [|discriminate]. cbn [bind].
  intros [= <-]. exists v. cbn [_precision _scale _value].
  repeat split; try assumption.
  destruct value as [s|v']; [|congruence].
  destruct (of_string s); congruence.
Qed.

(** X1: what every [Decimal] constructed from a finite value satisfies, the
    value being a literal of the grammar above or a well-formed decimal, and
    precision and scale being given or derived: the stored value is well
    formed, its exponent is the negated scale, the validator accepted the
    pair, and the coefficient has at most 28 digits (the context precision)
    and at most [precision + scale + 1]. *)
Theorem Decimal_of_invariant (value : ValueArg) (v : PyDecimal)
    (precision scale : option Z) (d : Decimal) :
  match value with
  | FromStr s => of_string s = Some v
  | FromDecimal v' => v' = v
  end ->
  wf v ->
  Decimal_of value precision scale = Ok d ->
  wf (_value d)
  /\ exponent (_value d) = - _scale d
  /\ check_precision_scale (_precision d) (_scale d) = true
  /\ Z.of_nat (List.length (digits (_value d))) <= prec
  /\ Z.of_nat (List.length (digits (_value d)))
     <= Z.max 1 (_precision d + _scale d + 1).
Proof.
  intros Hvalue Hv_wf Hd.
  destruct (Decimal_of_inv _ _ _ _ Hd) as (v0 & Hv & _ & _ & Hc & Hadj & Hq).
  assert (v0 = v).
  { destruct value as [s|v']; [|congruence].
    rewrite Hvalue in Hv. congruence. }
  subst v0.
  destruct (quantize_inv _ _ _ Hq) as (Hr & _ & Hok). cbn [exponent] in Hr.
  split; [rewrite Hr; now apply rescale_wf|].
  split; [rewrite Hr; apply rescale_exponent|].
  split; [exact Hc|].
  assert (Hlen := rescale_length v (- _scale d) (proj1 Hv_wf)). rewrite <- Hr in Hlen.
  split; [|lia].
  destruct Hok as [Hz|[_ Hlen']]; [|exact Hlen'].
  apply is_zero_digits in Hz. rewrite Hz. unfold prec. cbn. lia.
Qed.

(** X2: a literal with a positive exponent cannot be constructed without an
    explicit precision: the derived precision is the number of coefficient
    digits, which the magnitude test then finds too small, whatever the
    validator and the scale. *)
Theorem Decimal_of_positive_exponent_fails (s : string) (v : PyDecimal)
    (scale : option Z) :
  of_string s = Some v -> 0 < exponent v ->
  Decimal_of (FromStr s) None scale = Raise ValueError.
Proof.
  intros Hs He. unfold DecimalPy.Decimal_of, __init__. rewrite Hs. cbn [bind].
  destruct (check_precision_scale _ _); [|reflexivity]. cbn [negb].
  assert (E : (Z.of_nat (List.length (digits v)) <? adjusted v + 1) = true)
    by (apply Z.ltb_lt; unfold adjusted; lia).
  now rewrite E.
Qed.

(** X3: when the validator accepts the pair, a value that is not zero is
    refused with [ValueError] exactly when its integer part needs more than
    [p] digits. *)
Theorem Decimal_of_magnitude_check_exact (v : PyDecimal) (p sc : Z) :
  wf v -> is_zero v = false -> 0 <= p ->
  check_precision_scale p sc = true ->
  (Decimal_of (FromDecimal v) (Some p) (Some sc) = Raise ValueError
   <-> 10 ^ p <= integer_part v).
Proof.
  intros Hwf Hz Hp Hc. unfold DecimalPy.Decimal_of, __init__. cbn [bind].
  rewrite Hc. cbn [negb].
  destruct (p <? adjusted v + 1) eqn:E.
  - apply Z.ltb_lt in E. split; [intros _|reflexivity].
    now apply adjusted_integer_part.
  - apply Z.ltb_ge in E. split.
    + unfold quantize.
      destruct (negb _); [discriminate|]. rewrite Hz.
      destruct (Emax <? adjusted v); [discriminate|].
      destruct (prec <? _); [discriminate|].
      destruct (Emax <? _); [discriminate|].
      destruct (prec <? _); discriminate.
    + intro Hfit. pose proof (integer_part_adjusted v p (proj1 Hwf) Hp Hfit). lia.
Qed.

(** X4: a zero with exponent [e] is refused for every precision up to [e],
    although its integer part is 0: the magnitude test counts the exponent. *)
Theorem Decimal_of_zero_with_exponent (sg : bool) (e p : Z) (scale : option Z) :
  p <= e ->
  integer_part (DecimalTuple sg [O] e) = 0
  /\ Decimal_of (FromDecimal (DecimalTuple sg [O] e)) (Some p) scale
     = Raise ValueError.
Proof.
  intro Hpe. split.
  - unfold integer_part, coefficient. cbn [digits exponent].
    change (int_of_digits [O]) with 0. now destruct (0 <=? e).
  - unfold DecimalPy.Decimal_of, __init__. cbn [bind].
    destruct (check_precision_scale _ _); [|reflexivity]. cbn [negb].
    assert (E : (p <? adjusted (DecimalTuple sg [O] e) + 1) = true)
      by (apply Z.ltb_lt; unfold adjusted; cbn; lia).
    now rewrite E.
Qed.

(** X5: building a [Decimal] again from the stored value of one, with its
    precision and scale, gives that [Decimal] back, unless rounding has
    carried the stored value past the precision: then it is refused. *)
Theorem Decimal_of_stored_value_again (value : ValueArg)
    (precision scale : option Z) (d : Decimal) :
  Decimal_of value precision scale = Ok d ->
  Decimal_of (FromDecimal (_value d)) (Some (_precision d)) (Some (_scale d))
  = if _precision d <? adjusted (_value d) + 1 then Raise ValueError else Ok d.
Proof.
  intro Hd.
  destruct (Decimal_of_inv _ _ _ _ Hd) as (v & _ & _ & _ & Hc & _ & Hq).
  unfold DecimalPy.Decimal_of, __init__. cbn [bind]. rewrite Hc. cbn [negb].
  destruct (_precision d <? adjusted (_value d) + 1); [reflexivity|].
  rewrite (quantize_idempotent _ _ _ Hq). cbn [bind]. now destruct d.
Qed.

(** X6: two constructed Decimals that compare equal store the same digits
    at the same exponent; they can differ in precision and, when zero, in
    sign. *)
Theorem Decimal_eq_same_digits (v1 v2 : ValueArg) (p1 s1 p2 s2 : option Z)
    (a b : Decimal) :
  Decimal_of v1 p1 s1 = Ok a -> Decimal_of v2 p2 s2 = Ok b ->
  __eq__ a b = true ->
  digits (_value a) = digits (_value b)
  /\ exponent (_value a) = exponent (_value b)
  /\ (sign (_value a) = sign (_value b) \/ is_zero (_value a) = true).
Proof.
  intros Ha Hb.
  destruct (Decimal_of_inv _ _ _ _ Ha) as (va & _ & _ & _ & _ & _ & Hqa).
  destruct (Decimal_of_inv _ _ _ _ Hb) as (vb & _ & _ & _ & _ & _ & Hqb).
  apply quantize_rescale in Hqa, Hqb. cbn [exponent] in Hqa, Hqb.
  apply eq_same_digits.
  - rewrite Hqa at 1. apply rescale_exponent.
  - rewrite Hqb at 1. apply rescale_exponent.
Qed.

End WithTypes.

(** X7: on Decimals whose stored values are well-formed finite numbers,
    [__eq__] is reflexive, symmetric and transitive. *)
Theorem Decimal_eq_equivalence :
  (forall a, wf (_value a) -> __eq__ a a = true)
  /\ (forall a b,
        wf (_value a) -> wf (_value b) -> __eq__ a b = __eq__ b a)
  /\ (forall a b c,
        wf (_value a) -> wf (_value b) -> wf (_value c) ->
        __eq__ a b = true -> __eq__ b c = true -> __eq__ a c = true).
Proof.
  split; [|split].
  - intros a _. unfold __eq__. rewrite Z.eqb_refl. cbn [andb].
    unfold decimal_eq. destruct (is_zero (_value a)); [reflexivity|].
    rewrite Bool.eqb_reflx, Z.eqb_refl, Z.sub_diag. cbn [negb Z.to_nat repeat].
    apply list_eq_nat. reflexivity.
  - intros a b _ _. unfold __eq__. rewrite (Z.eqb_sym (_scale a)). f_equal.
    unfold decimal_eq.
    destruct (is_zero (_value a)), (is_zero (_value b)); try reflexivity.
    rewrite (Z.eqb_sym (adjusted (_value a))).
    assert (Hs : Bool.eqb (sign (_value a)) (sign (_value b))
                 = Bool.eqb (sign (_value b)) (sign (_value a)))
      by (destruct (sign (_value a)), (sign (_value b)); reflexivity).
    rewrite Hs. destruct (negb _); [reflexivity|].
    destruct (adjusted (_value b) =? adjusted (_value a)); [|reflexivity].
    apply eq_true_iff_eq. rewrite !list_eq_nat. split; congruence.
  - intros a b c Ha Hb Hc. unfold __eq__. rewrite !andb_true_iff, !Z.eqb_eq.
    rewrite (decimal_eq_same_number _ _ Ha Hb), (decimal_eq_same_number _ _ Hb Hc),
      (decimal_eq_same_number _ _ Ha Hc).
    intros [H1 H2] [H3 H4]. split; [congruence|].
    eapply same_number_trans; eassumption.
Qed.

(** The theorems above at concrete inputs, for a validator that accepts
    every pair. *)

Lemma X1_witness :
  wf (DecimalTuple false [1; 0]%nat 0)
  /\ 0 = - 0
  /\ true = true
  /\ 2 <= prec
  /\ 2 <= Z.max 1 (1 + 0 + 1).
Proof.
  apply (Decimal_of_invariant (fun _ _ => true) (FromStr "9.5")
           (DecimalTuple false [9; 5]%nat (-1)) (Some 1) (Some 0)
           (mkDecimal (DecimalTuple false [1; 0]%nat 0) 1 0)).
  - reflexivity.
  - repeat split; try discriminate; repeat constructor.
  - reflexivity.
Defined.

Lemma X2_witness :
  DecimalPy.Decimal_of (fun _ _ => true) (FromStr "1E+2") None None
  = Raise ValueError.
Proof.
  apply (Decimal_of_positive_exponent_fails (fun _ _ => true) "1E+2"
           (DecimalTuple false [1]%nat 2)); [reflexivity | simpl; lia].
Defined.

Lemma X3_witness :
  DecimalPy.Decimal_of (fun _ _ => true)
    (FromDecimal (DecimalTuple false [1; 2; 3; 4]%nat (-1))) (Some 2) (Some 1)
  = Raise ValueError
  <-> 10 ^ 2 <= integer_part (DecimalTuple false [1; 2; 3; 4]%nat (-1)).
Proof.
  apply (Decimal_of_magnitude_check_exact (fun _ _ => true)).
  - repeat split; try discriminate; repeat constructor.
  - reflexivity.
  - lia.
  - reflexivity.
Defined.

Lemma X4_witness :
  integer_part (DecimalTuple false [O] 5) = 0
  /\ DecimalPy.Decimal_of (fun _ _ => true)
       (FromDecimal (DecimalTuple false [O] 5)) (Some 3) (Some 0)
     = Raise ValueError.
Proof.
  apply (Decimal_of_zero_with_exponent (fun _ _ => true) false 5 3 (Some 0)). lia.
Defined.

Lemma X5_witness :
  DecimalPy.Decimal_of (fun _ _ => true)
    (FromDecimal (DecimalTuple false [1; 0]%nat 0)) (Some 1) (Some 0)
  = Raise ValueError
  /\ DecimalPy.Decimal_of (fun _ _ => true)
       (FromDecimal (DecimalTuple false [1; 0; 1]%nat (-2))) (Some 4) (Some 2)
     = Ok (mkDecimal (DecimalTuple false [1; 0; 1]%nat (-2)) 4 2).
Proof.
  split.
  - exact (Decimal_of_stored_value_again (fun _ _ => true) (FromStr "9.5")
             (Some 1) (Some 0) (mkDecimal (DecimalTuple false [1; 0]%nat 0) 1 0)
             eq_refl).
  - exact (Decimal_of_stored_value_again (fun _ _ => true) (FromStr "1.005")
             (Some 4) (Some 2)
             (mkDecimal (DecimalTuple false [1; 0; 1]%nat (-2)) 4 2) eq_refl).
Defined.

Lemma X7_witness :
  __eq__ (mkDecimal (DecimalTuple false [O] (-1)) 2 1)
         (mkDecimal (DecimalTuple false [O] (-1)) 7 1) = true
  /\ __eq__ (mkDecimal (DecimalTuple false [1; 5]%nat (-1)) 2 1)
            (mkDecimal (DecimalTuple false [1; 5]%nat (-1)) 2 1) = true
  /\ __eq__ (mkDecimal (DecimalTuple false [1; 5]%nat (-1)) 2 1)
            (mkDecimal (DecimalTuple true [1; 5]%nat (-1)) 2 1)
     = __eq__ (mkDecimal (DecimalTuple true [1; 5]%nat (-1)) 2 1)
              (mkDecimal (DecimalTuple false [1; 5]%nat (-1)) 2 1).
Proof.
  destruct Decimal_eq_equivalence as (Hrefl & Hsym & Htrans).
  split; [|split].
  - apply (Htrans (mkDecimal (DecimalTuple false [O] (-1)) 2 1)
                  (mkDecimal (DecimalTuple true [O] (-1)) 3 1)
                  (mkDecimal (DecimalTuple false [O] (-1)) 7 1)).
    + repeat split; try discriminate; repeat constructor.
    + repeat split; try discriminate; repeat constructor.
    + repeat split; try discriminate; repeat constructor.
    + reflexivity.
    + reflexivity.
  - apply Hrefl. repeat split; try discriminate; repeat constructor.
  - apply Hsym; repeat split; try discriminate; repeat constructor.
Defined.

Lemma X6_witness :
  [1; 5; 0]%nat = [1; 5; 0]%nat
  /\ -2 = -2
  /\ (false = false \/ is_zero (DecimalTuple false [1; 5; 0]%nat (-2)) = true).
Proof.
  apply (Decimal_eq_same_digits (fun _ _ => true)
           (FromStr "1.50") (FromStr "1.5") None None (Some 5) (Some 2)
           (mkDecimal (DecimalTuple false [1; 5; 0]%nat (-2)) 3 2)
           (mkDecimal (DecimalTuple false [1; 5; 0]%nat (-2)) 5 2));
    reflexivity.
Defined.

End DecimalExtras.

(** * Part VI: further properties of [transforms.py] *)

Module TransformsExtras.
Import TransformsPy Notions TransformsProperties.

(** ** Equality of references and of lists *)

Lemma FieldName_eq_iff (a b : FieldName) : FieldName_eq a b = true <-> a = b.
Proof.
  split; [apply FieldName_eq_true | intros ->; apply FieldName_eq_refl].
Qed.

Lemma NamedReference_eq_iff (a b : NamedReference) :
  NamedReference_eq a b = true <-> a = b.
Proof.
  unfold NamedReference_eq. rewrite FieldName_eq_iff.
  destruct a, b; cbn [field_name]. split; congruence.
Qed.

Lemma list_eq_iff {A : Type} (eq : A -> A -> bool) :
  (forall x y, eq x y = true <-> x = y) ->
  forall xs ys, list_eq eq xs ys = true <-> xs = ys.
Proof.
  intros Heq xs. induction xs as [|x xs IH]; intros [|y ys]; cbn [list_eq];
    try (split; [discriminate | congruence]); [tauto|].
  rewrite andb_true_iff, Heq, IH. split; [intros []; congruence|].
  intros [= -> ->]. now split.
Qed.

Lemma map_field_inj (xs ys : list FieldName) :
  map NamedReference_field xs = map NamedReference_field ys -> xs = ys.
Proof.
  revert ys. induction xs as [|x xs IH]; intros [|y ys] H; try discriminate H;
    [reflexivity|].
  cbn [map] in H. injection H as Hx Hxs. f_equal; [exact Hx | now apply IH].
Qed.

Lemma list_eq_sym_with {A : Type} (eq : A -> A -> bool) (xs : list A) :
  (forall x, In x xs -> forall y, eq x y = eq y x) ->
  forall ys, list_eq eq xs ys = list_eq eq ys xs.
Proof.
  induction xs as [|x xs IH]; intros H [|y ys]; cbn [list_eq]; try reflexivity.
  rewrite (H x (or_introl eq_refl) y), IH; [reflexivity|].
  intros z Hz. apply H. now right.
Qed.

Lemma list_eq_trans_with {A : Type} (eq : A -> A -> bool) (xs : list A) :
  (forall x, In x xs -> forall y z, eq x y = true -> eq y z = true -> eq x z = true) ->
  forall ys zs, list_eq eq xs ys = true -> list_eq eq ys zs = true ->
  list_eq eq xs zs = true.
Proof.
  induction xs as [|x xs IH]; intros H [|y ys] [|z zs]; cbn [list_eq];
    try discriminate; [reflexivity|].
  rewrite !andb_true_iff. intros [H1 H2] [H3 H4]. split.
  - eapply H; [now left | eassumption | eassumption].
  - eapply IH; [|eassumption|eassumption]. intros w Hw. apply H. now right.
Qed.

Lemma Partition_is_sym (p q : Partition) : Partition_is p q = Partition_is q p.
Proof. destruct p, q; cbn; try reflexivity; apply Nat.eqb_sym. Qed.

Lemma FieldName_eq_sym (a b : FieldName) : FieldName_eq a b = FieldName_eq b a.
Proof.
  destruct a, b; cbn [FieldName_eq]; try reflexivity.
  - apply String.eqb_sym.
  - apply list_eq_sym_with. intros x _ y. apply String.eqb_sym.
Qed.

Lemma string_list_eq_sym (xs ys : list string) :
  list_eq String.eqb xs ys = list_eq String.eqb ys xs.
Proof. apply list_eq_sym_with. intros x _ y. apply String.eqb_sym. Qed.

Lemma ref_list_eq_sym (xs ys : list NamedReference) :
  list_eq NamedReference_eq xs ys = list_eq NamedReference_eq ys xs.
Proof. apply list_eq_sym_with. intros x _ y. apply FieldName_eq_sym. Qed.

Lemma py_eq_sym : forall a b, py_eq a b = py_eq b a
with Transform_eq_sym : forall t t',
    Transform_eq t (VTransform t') = Transform_eq t' (VTransform t).
Proof.
  - intros [|n|s|xs|x|r|p|t] b.
    + destruct b as [| | | | | | |t']; try reflexivity. destruct t'; reflexivity.
    + destruct b as [|m| | | | | |t']; try reflexivity; cbn [py_eq].
      * apply Z.eqb_sym.
      * destruct t'; reflexivity.
    + destruct b as [| |s'| | | | |t']; try reflexivity; cbn [py_eq].
      * apply String.eqb_sym.
      * destruct t'; reflexivity.
    + destruct b as [| | |ys| | | |t']; try reflexivity; cbn [py_eq].
      * revert ys. induction xs as [|x xs IH]; intros [|y ys]; cbn [list_eq];
          try reflexivity.
        now rewrite py_eq_sym, IH.
      * destruct t'; reflexivity.
    + destruct b as [| | | |y| | |t']; try reflexivity; cbn [py_eq].
      * apply py_eq_sym.
      * destruct t'; reflexivity.
    + destruct b as [| | | | |r'| |t']; try reflexivity; cbn [py_eq].
      * apply FieldName_eq_sym.
      * destruct t'; reflexivity.
    + destruct b as [| | | | | |q|t']; try reflexivity; cbn [py_eq].
      * apply Partition_is_sym.
      * destruct t'; reflexivity.
    + destruct b as [| | | | | | |t']; cbn [py_eq];
        [destruct t; reflexivity .. | apply Transform_eq_sym].
  - intros [r|r|r|r|r|nb fs|w f|fs a|f a|nm args]
           [r'|r'|r'|r'|r'|nb' fs'|w' f'|fs' a'|f' a'|nm' args'];
      cbn [Transform_eq]; try reflexivity; try apply FieldName_eq_sym.
    + now rewrite py_eq_sym, string_list_eq_sym.
    + rewrite py_eq_sym. f_equal. apply FieldName_eq_sym.
    + apply ref_list_eq_sym.
    + rewrite String.eqb_sym. f_equal.
      revert args'. induction args as [|x xs IH]; intros [|y ys]; cbn [list_eq];
        try reflexivity.
      now rewrite py_eq_sym, IH.
Qed.

Lemma FieldName_eq_trans (a b c : FieldName) :
  FieldName_eq a b = true -> FieldName_eq b c = true -> FieldName_eq a c = true.
Proof.
  intros H1 H2. apply FieldName_eq_true in H1, H2. subst. apply FieldName_eq_refl.
Qed.

Lemma py_eq_trans : forall a b c,
    py_eq a b = true -> py_eq b c = true -> py_eq a c = true
with Transform_eq_trans : forall t b c,
    Transform_eq t b = true -> py_eq b c = true -> Transform_eq t c = true.
Proof.
  - intros [|n|s|xs|x|r|p|t] b c Hab Hbc.
    + destruct b; try discriminate Hab. exact Hbc.
    + destruct b as [|m| | | | | |]; try discriminate Hab.
      cbn [py_eq] in Hab. apply Z.eqb_eq in Hab. subst. exact Hbc.
    + destruct b as [| |s'| | | | |]; try discriminate Hab.
      cbn [py_eq] in Hab. apply String.eqb_eq in Hab. subst. exact Hbc.
    + destruct b as [| | |ys| | | |]; try discriminate Hab.
      destruct c as [| | |zs| | | |]; try discriminate Hbc.
      cbn [py_eq] in *. revert ys zs Hab Hbc.
      induction xs as [|x xs IH]; intros [|y ys] [|z zs]; cbn [list_eq];
        try discriminate; [reflexivity|].
      rewrite !andb_true_iff. intros [H1 H2] [H3 H4]. split.
      * exact (py_eq_trans x y z H1 H3).
      * exact (IH ys zs H2 H4).
    + destruct b as [| | | |y| | |]; try discriminate Hab.
      destruct c as [| | | |z| | |]; try discriminate Hbc.
      cbn [py_eq] in *. exact (py_eq_trans x y z Hab Hbc).
    + destruct b as [| | | | |r'| |]; try discriminate Hab.
      destruct c as [| | | | |r''| |]; try discriminate Hbc.
      cbn [py_eq] in *. exact (FieldName_eq_trans _ _ _ Hab Hbc).
    + destruct b as [| | | | | |q|]; try discriminate Hab.
      cbn [py_eq] in Hab. apply Partition_is_true in Hab. subst. exact Hbc.
    + cbn [py_eq] in *. exact (Transform_eq_trans t b c Hab Hbc).
  - intros [r|r|r|r|r|nb fs|w f|fs a|f a|nm args] b c Hab Hbc.
    1-5: destruct b as [| | | | | | |[r'|r'|r'|r'|r'|nb' fs'|w' f'|fs' a'|f' a'|nm' args']];
         try discriminate Hab;
         destruct c as [| | | | | | |[r''|r''|r''|r''|r''|nb'' fs''|w'' f''|fs'' a''|f'' a''|nm'' args'']];
         try discriminate Hbc;
         cbn [py_eq Transform_eq] in *; exact (FieldName_eq_trans _ _ _ Hab Hbc).
    + destruct b as [| | | | | | |[r'|r'|r'|r'|r'|nb' fs'|w' f'|fs' a'|f' a'|nm' args']];
        try discriminate Hab;
        destruct c as [| | | | | | |[r''|r''|r''|r''|r''|nb'' fs''|w'' f''|fs'' a''|f'' a''|nm'' args'']];
        try discriminate Hbc.
      cbn [py_eq Transform_eq] in *.
      apply andb_true_iff in Hab, Hbc. destruct Hab as [H1 H2], Hbc as [H3 H4].
      apply andb_true_iff. split.
      * exact (py_eq_trans nb nb' nb'' H1 H3).
      * apply (list_eq_iff String.eqb String.eqb_eq) in H2, H4.
        apply (list_eq_iff String.eqb String.eqb_eq). congruence.
    + destruct b as [| | | | | | |[r'|r'|r'|r'|r'|nb' fs'|w' f'|fs' a'|f' a'|nm' args']];
        try discriminate Hab;
        destruct c as [| | | | | | |[r''|r''|r''|r''|r''|nb'' fs''|w'' f''|fs'' a''|f'' a''|nm'' args'']];
        try discriminate Hbc.
      cbn [py_eq Transform_eq] in *.
      apply andb_true_iff in Hab, Hbc. destruct Hab as [H1 H2], Hbc as [H3 H4].
      apply andb_true_iff. split.
      * exact (py_eq_trans w w' w'' H1 H3).
      * exact (FieldName_eq_trans _ _ _ H2 H4).
    + destruct b as [| | | | | | |[r'|r'|r'|r'|r'|nb' fs'|w' f'|fs' a'|f' a'|nm' args']];
        try discriminate Hab;
        destruct c as [| | | | | | |[r''|r''|r''|r''|r''|nb'' fs''|w'' f''|fs'' a''|f'' a''|nm'' args'']];
        try discriminate Hbc.
      cbn [py_eq Transform_eq] in *.
      apply (list_eq_iff NamedReference_eq NamedReference_eq_iff) in Hab, Hbc.
      apply (list_eq_iff NamedReference_eq NamedReference_eq_iff). congruence.
    + destruct b as [| | | | | | |[r'|r'|r'|r'|r'|nb' fs'|w' f'|fs' a'|f' a'|nm' args']];
        try discriminate Hab;
        destruct c as [| | | | | | |[r''|r''|r''|r''|r''|nb'' fs''|w'' f''|fs'' a''|f'' a''|nm'' args'']];
        try discriminate Hbc.
      cbn [py_eq Transform_eq] in *. exact (FieldName_eq_trans _ _ _ Hab Hbc).
    + destruct b as [| | | | | | |[r'|r'|r'|r'|r'|nb' fs'|w' f'|fs' a'|f' a'|nm' args']];
        try discriminate Hab;
        destruct c as [| | | | | | |[r''|r''|r''|r''|r''|nb'' fs''|w'' f''|fs'' a''|f'' a''|nm'' args'']];
        try discriminate Hbc.
      cbn [py_eq Transform_eq] in *.
      apply andb_true_iff in Hab, Hbc. destruct Hab as [H1 H2], Hbc as [H3 H4].
      apply String.eqb_eq in H1, H3. subst. rewrite String.eqb_refl. cbn [andb].
      revert args' args'' H2 H4.
      induction args as [|x xs IH]; intros [|y ys] [|z zs]; cbn [list_eq];
        try discriminate; [reflexivity|].
      rewrite !andb_true_iff. intros [H1 H2] [H3 H4]. split.
      * exact (py_eq_trans x y z H1 H3).
      * exact (IH ys zs H2 H4).
Qed.

(** ** Equality of what the factories build *)

(** X8: two transforms built by the same single-field factory are equal
    exactly when their field names are the same path once a bare name is
    read as a one-segment path. *)
Theorem single_field_factories_eq (a b : FieldName) :
  (Transform_eq (Transforms_identity a) (VTransform (Transforms_identity b)) = true
   <-> normalized a = normalized b)
  /\ (Transform_eq (Transforms_year a) (VTransform (Transforms_year b)) = true
      <-> normalized a = normalized b)
  /\ (Transform_eq (Transforms_month a) (VTransform (Transforms_month b)) = true
      <-> normalized a = normalized b)
  /\ (Transform_eq (Transforms_day a) (VTransform (Transforms_day b)) = true
      <-> normalized a = normalized b)
  /\ (Transform_eq (Transforms_hour a) (VTransform (Transforms_hour b)) = true
      <-> normalized a = normalized b).
Proof.
  repeat split; cbn [Transform_eq Transforms_identity Transforms_year
                     Transforms_month Transforms_day Transforms_hour];
    unfold NamedReference_eq, NamedReference_field; cbn [field_name];
    rewrite FieldName_eq_iff; intro H; exact H.
Qed.

(** X9: two [truncate] transforms are equal exactly when the widths are
    equal and the field names are the same path after normalization. *)
Theorem truncate_eq (w w' : Z) (a b : FieldName) :
  Transform_eq (Transforms_truncate w a) (VTransform (Transforms_truncate w' b)) = true
  <-> w = w' /\ normalized a = normalized b.
Proof.
  cbn [Transform_eq Transforms_truncate Literals_integer_literal py_eq].
  rewrite andb_true_iff, Z.eqb_eq.
  unfold NamedReference_eq, NamedReference_field; cbn [field_name].
  rewrite FieldName_eq_iff. reflexivity.
Qed.

(** Buckets over the same flattened name parts are equal. *)
Lemma bucket_eq_of_parts (n : Z) (fns fns' : list FieldName) :
  flat_map iter fns = flat_map iter fns' ->
  Transform_eq (Transforms_bucket n fns) (VTransform (Transforms_bucket n fns')) = true.
Proof.
  intro H. cbn [Transform_eq Transforms_bucket Literals_integer_literal py_eq].
  rewrite Z.eqb_refl. cbn [andb].
  assert (E : forall l, BucketTransform_field_names (map NamedReference_field l)
                        = flat_map iter l).
  { intro l. unfold BucketTransform_field_names.
    rewrite !flat_map_concat_map, map_map. reflexivity. }
  rewrite !E, H. apply list_eq_refl. intros x _. apply String.eqb_refl.
Qed.




(** X13: [__eq__] of the ten transform classes is an equivalence relation:
    every transform equals itself, equality does not depend on the side, and
    it is transitive. *)
Theorem Transform_eq_equivalence :
  (forall t, Transform_eq t (VTransform t) = true)
  /\ (forall t t',
        Transform_eq t (VTransform t') = Transform_eq t' (VTransform t))
  /\ (forall t t' t'',
        Transform_eq t (VTransform t') = true ->
        Transform_eq t' (VTransform t'') = true ->
        Transform_eq t (VTransform t'') = true).
Proof.
  split; [exact Transform_eq_refl|]. split; [exact Transform_eq_sym|].
  intros t t' t'' H1 H2. exact (Transform_eq_trans t _ _ H1 H2).
Qed.

(** X14: among the transforms that are not [ApplyTransform], [name()] tells
    the class: two of them have the same name exactly when they are of the
    same class. *)
Theorem name_identifies_class (t t' : Transform) :
  is_apply t = false -> is_apply t' = false ->
  (name t = name t' <-> type_of t = type_of t').
Proof.
  intros Ht Ht'.
  destruct t; try discriminate Ht; destruct t'; try discriminate Ht';
    cbn [name type_of]; split; intro H; try reflexivity; discriminate H.
Qed.

(** ** Accessors *)

Lemma field_names_of_fields (fns : list FieldName) :
  ListTransform_field_names (map NamedReference_field fns) = fns.
Proof.
  unfold ListTransform_field_names. rewrite map_map. cbn [NamedReference_field field_name].
  apply map_id.
Qed.

Lemma flat_names_of_fields (fns : list FieldName) :
  BucketTransform_field_names (map NamedReference_field fns) = flat_map iter fns.
Proof.
  unfold BucketTransform_field_names. rewrite !flat_map_concat_map, map_map.
  reflexivity.
Qed.


(** ** Methods and hashing *)

Section WithBuiltins.

Variable hash_int : Z -> Z.
Variable hash_str : string -> Z.
Variable hash_tuple : list Z -> Z.
Variable hash_id : nat -> Z.
Variable hash_None : Z.
Variable hash_reference : NamedReference -> Z.
Variable str_reference : NamedReference -> string.
Variable hash_literal : PyVal -> Z.
Variable str_literal : PyVal -> string.

Local Abbreviation py_hash :=
  (TransformsPy.py_hash hash_int hash_str hash_tuple hash_id hash_None
     hash_reference str_reference hash_literal).
Local Abbreviation Transform_hash :=
  (TransformsPy.Transform_hash hash_int hash_str hash_tuple hash_id hash_None
     hash_reference str_reference hash_literal).
Local Abbreviation call_method :=
  (TransformsPy.call_method hash_int hash_str hash_tuple hash_id hash_None
     hash_reference str_reference hash_literal str_literal).

(** X16: on every transform [children()] returns what [arguments()] returns,
    by the default of [Transform] or by the override of the class, and
    [name()], [arguments()] and [children()] are never hidden by an instance
    attribute. *)
Theorem children_are_arguments (t : Transform) :
  call_method t "children" = Ok (VList (arguments str_literal t))
  /\ call_method t "arguments" = Ok (VList (arguments str_literal t))
  /\ call_method t "name" = Ok (VStr (name t)).
Proof. destruct t; repeat split. Qed.

(** X17: [assignments()] returns the empty default on every transform but
    a [ListTransform] or a [RangeTransform], where the call fails. *)
Theorem assignments_call (t : Transform) :
  call_method t "assignments"
  = match t with
    | ListTransform _ _ | RangeTransform _ _ => Raise TypeError
    | _ => Ok (VList [])
    end.
Proof. destruct t; reflexivity. Qed.

Lemma Transform_hash_bucket (nb : PyVal) (fs : list NamedReference) :
  Transform_hash (BucketTransform nb fs)
  = (h <- py_hash nb ;;
     Ok (hash_tuple (h :: map (fun field => hash_str (str_reference field)) fs))).
Proof. reflexivity. Qed.

Lemma Transform_hash_truncate (w : PyVal) (f : NamedReference) :
  Transform_hash (TruncateTransform w f)
  = (h <- py_hash w ;; Ok (hash_tuple [h; hash_reference f])).
Proof. reflexivity. Qed.

Lemma Transform_hash_apply (nm : string) (args : list PyVal) :
  Transform_hash (ApplyTransform nm args)
  = (hs <- hash_items py_hash args ;;
     Ok (hash_tuple [hash_str nm; hash_tuple hs])).
Proof. reflexivity. Qed.

Lemma py_hash_transform (t : Transform) : py_hash (VTransform t) = Transform_hash t.
Proof. reflexivity. Qed.

Lemma py_hash_raises : forall v e, py_hash v = Raise e -> e = TypeError
with Transform_hash_raises : forall t e, Transform_hash t = Raise e -> e = TypeError.
Proof.
  - intros [|n|s|xs|x|r|[i|i]|t] e; try discriminate.
    + now intros [= <-].
    + rewrite py_hash_transform. apply Transform_hash_raises.
  - intros [r|r|r|r|r|nb fs|w f|fs a|f a|nm args] e; try discriminate.
    + rewrite Transform_hash_bucket.
      destruct (py_hash nb) as [h|e'] eqn:E; cbn [bind]; [discriminate|].
      intros [= <-]. exact (py_hash_raises nb e' E).
    + rewrite Transform_hash_truncate.
      destruct (py_hash w) as [h|e'] eqn:E; cbn [bind]; [discriminate|].
      intros [= <-]. exact (py_hash_raises w e' E).
    + rewrite Transform_hash_apply.
      assert (H : forall e', hash_items py_hash args = Raise e' -> e' = TypeError).
      { induction args as [|x xs IH]; intros e'; cbn [hash_items]; [discriminate|].
        destruct (py_hash x) as [h|e''] eqn:E; cbn [bind].
        - destruct (hash_items py_hash xs) as [hs|e3]; cbn [bind]; [discriminate|].
          intros [= <-]. now apply IH.
        - intros [= <-]. exact (py_hash_raises x e'' E). }
      destruct (hash_items py_hash args) as [hs|e'] eqn:E; cbn [bind]; [discriminate|].
      intros [= <-]. now apply H.
Qed.

Lemma py_hash_hashable : forall v, hashable v = true -> exists h, py_hash v = Ok h
with Transform_hash_hashable : forall t,
    hashable_transform t = true -> exists h, Transform_hash t = Ok h.
Proof.
  - intros [|n|s|xs|x|r|[i|i]|t] H; try (eexists; reflexivity).
    + discriminate H.
    + rewrite py_hash_transform. apply Transform_hash_hashable. exact H.
  - intros [r|r|r|r|r|nb fs|w f|fs a|f a|nm args] H; try (eexists; reflexivity).
    + cbn [hashable_transform] in H. rewrite Transform_hash_bucket.
      destruct (py_hash_hashable nb H) as [h ->]. cbn [bind]. eexists; reflexivity.
    + cbn [hashable_transform] in H. rewrite Transform_hash_truncate.
      destruct (py_hash_hashable w H) as [h ->]. cbn [bind]. eexists; reflexivity.
    + cbn [hashable_transform] in H. rewrite Transform_hash_apply.
      assert (Hitems : exists hs, hash_items py_hash args = Ok hs).
      { induction args as [|x xs IH]; [eexists; reflexivity|].
        cbn [forallb] in H. apply andb_true_iff in H. destruct H as [Hx Hxs].
        cbn [hash_items]. destruct (py_hash_hashable x Hx) as [h ->].
        destruct (IH Hxs) as [hs ->]. cbn [bind]. eexists; reflexivity. }
      destruct Hitems as [hs ->]. cbn [bind]. eexists; reflexivity.
Qed.

Lemma hash_items_list (args : list PyVal) (xs : list PyVal) :
  In (VList xs) args -> hash_items py_hash args = Raise TypeError.
Proof.
  induction args as [|x args IH]; intro Hin; [contradiction|].
  cbn [hash_items]. destruct Hin as [->|Hin].
  - reflexivity.
  - destruct (py_hash x) as [h|e] eqn:E; cbn [bind].
    + now rewrite (IH Hin).
    + now rewrite (py_hash_raises x e E).
Qed.

(** X18: for every class but [BucketTransform], equal transforms have equal
    hashes: the hash is taken over the attributes that equality compares. *)
Theorem eq_implies_same_hash (t t' : Transform) :
  hash_follows_eq t = true ->
  Transform_eq t (VTransform t') = true ->
  Transform_hash t = Transform_hash t'.
Proof.
  intros Hh Heq.
  destruct t, t'; cbn [Transform_eq] in Heq; try discriminate Heq;
    cbn [hash_follows_eq] in Hh; try discriminate Hh.
  1-5: apply NamedReference_eq_iff in Heq; now subst.
  - apply andb_true_iff in Heq. destruct Heq as [Hw Hf].
    apply NamedReference_eq_iff in Hf. apply (py_eq_simple _ Hh) in Hw. now subst.
  - apply (list_eq_iff NamedReference_eq NamedReference_eq_iff) in Heq. now subst.
  - apply NamedReference_eq_iff in Heq. now subst.
  - apply andb_true_iff in Heq. destruct Heq as [Hn Ha].
    apply String.eqb_eq in Hn. apply (list_eq_simple _ _ Hh) in Ha. now subst.
Qed.

(** X20: hashing a transform fails with [TypeError] and nothing else;
    it succeeds when no list occurs among the hashed values; it fails when
    an [ApplyTransform] has a list among its arguments. *)
Theorem Transform_hash_failures :
  (forall t e, Transform_hash t = Raise e -> e = TypeError)
  /\ (forall t, hashable_transform t = true -> exists h, Transform_hash t = Ok h)
  /\ (forall name args xs,
        In (VList xs) args ->
        Transform_hash (Transforms_apply name args) = Raise TypeError).
Proof.
  split; [exact Transform_hash_raises|]. split; [exact Transform_hash_hashable|].
  intros name args xs Hin. unfold Transforms_apply.
  rewrite Transform_hash_apply. now rewrite (hash_items_list args xs Hin).
Qed.

End WithBuiltins.

(** The theorems above at concrete inputs. *)

Lemma X8_witness :
  Transform_eq (Transforms_day (Name "ts")) (VTransform (Transforms_day (Parts ["ts"])))
  = true.
Proof.
  apply (proj2 (proj1 (proj2 (proj2 (proj2
           (single_field_factories_eq (Name "ts") (Parts ["ts"]))))))).
  reflexivity.
Defined.

Lemma X9_witness :
  Transform_eq (Transforms_truncate 8 (Name "id"))
               (VTransform (Transforms_truncate 8 (Parts ["id"]))) = true.
Proof.
  apply (proj2 (truncate_eq 8 8 (Name "id") (Parts ["id"]))).
  split; reflexivity.
Defined.



Lemma X13_witness :
  Transform_eq (Transforms_bucket 2 [Name "ab"])
               (VTransform (Transforms_bucket 2 [Parts ["a"]; Parts ["b"]])) = true.
Proof.
  apply (proj2 (proj2 Transform_eq_equivalence)
           (Transforms_bucket 2 [Name "ab"])
           (Transforms_bucket 2 [Parts ["a"; "b"]])
           (Transforms_bucket 2 [Parts ["a"]; Parts ["b"]])); reflexivity.
Defined.

Lemma X14_witness :
  type_of (Transforms_year (Name "a")) = type_of (Transforms_year (Parts ["b"; "c"])).
Proof.
  apply (proj1 (name_identifies_class (Transforms_year (Name "a"))
                  (Transforms_year (Parts ["b"; "c"])) eq_refl eq_refl)).
  reflexivity.
Defined.

Lemma X18_witness :
  TransformsPy.Transform_hash (fun n => n) (fun _ => 0) (fun _ => 0) (fun _ => 0) 0
    (fun _ => 0) (fun _ => "") (fun _ => 0) (Transforms_truncate 8 (Name "id"))
  = TransformsPy.Transform_hash (fun n => n) (fun _ => 0) (fun _ => 0) (fun _ => 0) 0
      (fun _ => 0) (fun _ => "") (fun _ => 0) (Transforms_truncate 8 (Parts ["id"])).
Proof.
  apply (eq_implies_same_hash (fun n => n) (fun _ => 0) (fun _ => 0) (fun _ => 0) 0
           (fun _ => 0) (fun _ => "") (fun _ => 0)); reflexivity.
Defined.

Lemma X20_witness :
  TransformsPy.Transform_hash (fun n => n) (fun _ => 0) (fun _ => 0) (fun _ => 0) 0
    (fun _ => 0) (fun _ => "") (fun _ => 0)
    (Transforms_apply "f" [VInt 1; VList [VStr "x"]])
  = Raise TypeError
  /\ exists h,
       TransformsPy.Transform_hash (fun n => n) (fun _ => 0) (fun _ => 0)
         (fun _ => 0) 0 (fun _ => 0) (fun _ => "") (fun _ => 0)
         (Transforms_apply "f" [VInt 1; VTransform (Transforms_bucket 4 [Name "x"])])
       = Ok h.
Proof.
  pose proof (Transform_hash_failures (fun n => n) (fun _ => 0) (fun _ => 0)
                (fun _ => 0) 0 (fun _ => 0) (fun _ => "") (fun _ => 0))
    as (_ & Hok & Hlist).
  split.
  - apply (Hlist "f" [VInt 1; VList [VStr "x"]] [VStr "x"]). simpl. auto.
  - apply Hok. reflexivity.
Defined.

End TransformsExtras.
